(** * Equity risk library: return pipeline and risk metrics

    A shallow embedding of [scripts/risk_library/data_loader.py]
    (class [StockDataFetcher]) and [scripts/risk_library/risk_metrics.py]
    (class [RiskMetrics]).

    Numbers.  Python floats are idealised as exact rationals ([Q]); rounding,
    overflow and signed zeros are not represented.  What IEEE arithmetic does
    at a zero divisor is kept: a division of floats returns an [xfloat], a
    rational or one of [PInf], [NInf], [NaN].  A missing table cell (pandas
    [NaN]) is an absent key of the row.

    Tables.  The dates of a series or table are unique, as the index of a
    downloaded price table is; prices are positive.  The series handed to
    [RiskMetrics] are the ones the pipeline produces after [dropna()]: they
    hold numbers only.

    Libraries.  What pandas and numpy do at the calls the source makes
    ([pct_change], [dropna], [dot], [cumprod], [cummax], [min], [mean],
    [std], [var], [cov], [np.cov], [np.var], [np.percentile]) is written out
    below with the defaults the source relies on; [print] calls are left
    out. *)

From Stdlib Require Import List String ZArith QArith Qround Lia Lqa Bool.
From Stdlib Require Import Sorted Permutation.
Import ListNotations.

Local Open Scope Q_scope.

(** ** Exceptions and results *)

(** Every [raise] of the two source files, one constructor per site. *)
Inductive exn : Type :=
| WeightsTickersMismatch
    (* data_loader.py:26  ValueError("Number of weights must match number of tickers.") *)
| StockDataEmpty
    (* data_loader.py:55  ValueError("Stock data is empty. Run fetch_data() first.") *)
| NoTickersFound
    (* data_loader.py:70  ValueError("None of the provided tickers were found ...") *)
| StocksWeightsMismatch (found provided : nat)
    (* data_loader.py:73  ValueError(f"Mismatch: {found} stocks found in data, but {provided} weights provided.") *)
| BetaNeedsBenchmark
    (* risk_metrics.py:33 ValueError("Benchmark returns are required to compute Beta.") *)
| TrackingErrorNeedsBenchmark
    (* risk_metrics.py:55 ValueError("Benchmark returns are required to compute Tracking Error.") *)
| AssetLengthMismatch
    (* risk_metrics.py:73 ValueError("Asset returns must have the same length as portfolio returns.") *)
| PercentileOutOfRange
    (* numpy: ValueError("Percentiles must be in the range [0, 100]") *).

(** The error kinds of the specification's taxonomy. *)
Inductive error_kind : Type :=
| ConfigurationError | DataUnavailable | NotFetched | NoMatchingAssets
| WeightCountMismatch | BenchmarkRequired | InsufficientData | LengthMismatch
| LibraryError.

Definition kind_of (e : exn) : error_kind :=
  match e with
  | WeightsTickersMismatch => ConfigurationError
  | StockDataEmpty => NotFetched
  | NoTickersFound => NoMatchingAssets
  | StocksWeightsMismatch _ _ => WeightCountMismatch
  | BetaNeedsBenchmark | TrackingErrorNeedsBenchmark => BenchmarkRequired
  | AssetLengthMismatch => LengthMismatch
  | PercentileOutOfRange => LibraryError
  end.

Inductive result (A : Type) : Type :=
| Ok (a : A)
| Raise (e : exn).
Arguments Ok {A} a.
Arguments Raise {A} e.

Definition bind {A B} (m : result A) (k : A -> result B) : result B :=
  match m with
  | Ok a => k a
  | Raise e => Raise e
  end.

Notation "x <- m ;; k" := (bind m (fun x => k))
  (at level 61, m at next level, right associativity).

Definition fails_with {A} (m : result A) (k : error_kind) : Prop :=
  exists e, m = Raise e /\ kind_of e = k.

(** ** Floats with the IEEE special values *)

Inductive xfloat : Type :=
| Fin (q : Q)
| PInf
| NInf
| NaN.

Definition is_zero (q : Q) : bool := Qeq_bool q 0.
Definition is_neg (q : Q) : bool := negb (Qle_bool 0 q).

Definition xsign_inf (negative : bool) : xfloat :=
  if negative then NInf else PInf.

(** Float division [a / b]. *)
Definition xdiv (a b : xfloat) : xfloat :=
  match a, b with
  | NaN, _ | _, NaN => NaN
  | Fin x, Fin y =>
      if is_zero y then
        if is_zero x then NaN else xsign_inf (is_neg x)
      else Fin (x / y)
  | Fin _, (PInf | NInf) => Fin 0
  | (PInf | NInf), (PInf | NInf) => NaN
  | PInf, Fin y => xsign_inf (is_neg y)
  | NInf, Fin y => xsign_inf (negb (is_neg y))
  end.

(** Float product [a * b]. *)
Definition xmul (a b : xfloat) : xfloat :=
  match a, b with
  | NaN, _ | _, NaN => NaN
  | Fin x, Fin y => Fin (x * y)
  | Fin x, PInf | PInf, Fin x =>
      if is_zero x then NaN else xsign_inf (is_neg x)
  | Fin x, NInf | NInf, Fin x =>
      if is_zero x then NaN else xsign_inf (negb (is_neg x))
  | PInf, PInf | NInf, NInf => PInf
  | PInf, NInf | NInf, PInf => NInf
  end.

(** Float difference [a - b]. *)
Definition xsub (a b : xfloat) : xfloat :=
  match a, b with
  | NaN, _ | _, NaN => NaN
  | Fin x, Fin y => Fin (x - y)
  | Fin _, PInf => NInf
  | Fin _, NInf => PInf
  | PInf, (Fin _ | NInf) => PInf
  | NInf, (Fin _ | PInf) => NInf
  | PInf, PInf | NInf, NInf => NaN
  end.

(** Equality of floats up to the representation of the rational. *)
Definition xeq (a b : xfloat) : Prop :=
  match a, b with
  | Fin x, Fin y => x == y
  | PInf, PInf | NInf, NInf | NaN, NaN => True
  | _, _ => False
  end.

Definition is_finite (a : xfloat) : bool :=
  match a with Fin _ => true | _ => false end.

(** ** Dates, series and tables *)

(** A trading date, as its day number. *)
Definition date : Type := Z.

(** A pandas [Series]: the index and the values, in index order. *)
Definition Series (A : Type) : Type := list (date * A).

Definition values {A} (s : Series A) : list A := map snd s.
Definition index {A} (s : Series A) : list date := map fst s.

Fixpoint lookup_date {A} (d : date) (s : Series A) : option A :=
  match s with
  | [] => None
  | (d', v) :: s' => if Z.eqb d d' then Some v else lookup_date d s'
  end.

(** A table row maps column labels to values; a label with no entry is a
    missing value ([NaN]). *)
Definition Row (A : Type) : Type := list (string * A).

Fixpoint cell {A} (c : string) (r : Row A) : option A :=
  match r with
  | [] => None
  | (c', v) :: r' => if String.eqb c c' then Some v else cell c r'
  end.

(** A pandas [DataFrame]: the column labels and the rows in date order. *)
Record DataFrame (A : Type) : Type := mkFrame {
  columns : list string;
  rows : Series (Row A)
}.
Arguments mkFrame {A} columns rows.
Arguments columns {A} d.
Arguments rows {A} d.

Definition is_some {A} (o : option A) : bool :=
  match o with Some _ => true | None => false end.

(** No cell of the row is missing. *)
Definition complete {A} (cols : list string) (r : Row A) : bool :=
  forallb (fun c => is_some (cell c r)) cols.

(** [DataFrame.dropna()] with its defaults ([axis=0, how='any']): a row with
    a missing cell in any column is removed whole. *)
Definition dropna {A} (df : DataFrame A) : DataFrame A :=
  mkFrame (columns df)
          (filter (fun dr => complete (columns df) (snd dr)) (rows df)).

(** [df.shape[0]]. *)
Definition shape0 {A} (df : DataFrame A) : nat := List.length (rows df).

(** ** data_loader.py: class StockDataFetcher *)

(** An adjusted closing price: a positive rational [pnum / pden]. *)
Record price : Type := mkPrice { pnum : positive; pden : positive }.

Definition price_value (p : price) : Q := Zpos (pnum p) # pden p.

(** The market-data collaborator ([yf.download] followed by the selection of
    the close prices): the tickers, the start date and the end date give a
    price table. *)
Definition provider : Type := list string -> string -> string -> DataFrame price.

(** What has been asked of the collaborator so far, latest call first. *)
Definition world : Type := list (list string * string * string).

Module StockDataFetcher.

Record t : Type := mk {
  tickers : list string;
  start_date : string;
  end_date : string;
  benchmark_ticker : option string;
  data : option (DataFrame price);
  benchmark_data : option (DataFrame price);
  benchmark_returns : option (DataFrame Q);
  weights : list Q
}.

(** Python truth value of a list: [if weights:] holds for a non-empty list
    only; [None] and [[]] are both false. *)
Definition truthy {A} (o : option (list A)) : bool :=
  match o with
  | Some (_ :: _) => true
  | _ => false
  end.

(** [np.ones(n) / n]. *)
Definition equal_weights (n : nat) : list Q :=
  repeat (1 / inject_Z (Z.of_nat n)) n.

(** [__init__] (data_loader.py:8-29).  The constructor calls nothing of the
    collaborator: the world it returns is the one it was given. *)
Definition init (tickers : list string) (start_date end_date : string)
    (weights : option (list Q)) (benchmark_ticker : option string)
    (w : world) : world * result t :=
  let self ws :=
    mk tickers start_date end_date benchmark_ticker None None None ws in
  if truthy weights then
    let ws := match weights with Some ws => ws | None => [] end in
    if negb (Nat.eqb (List.length ws) (List.length tickers)) then
      (w, Raise WeightsTickersMismatch)
    else (w, Ok (self ws))
  else (w, Ok (self (equal_weights (List.length tickers)))).

(** One cell of [data / data.shift(1) - 1]. *)
Definition pct_cell (prev cur : option price) : option Q :=
  match prev, cur with
  | Some p0, Some p1 => Some (price_value p1 / price_value p0 - 1)
  | _, _ => None
  end.

(** Builds a row over [cols] from a cell function. *)
Fixpoint build_row {B} (cols : list string) (f : string -> option B) : Row B :=
  match cols with
  | [] => []
  | c :: cols' =>
      match f c with
      | Some v => (c, v) :: build_row cols' f
      | None => build_row cols' f
      end
  end.

(** Applies [f] to each row and the row before it ([shift(1)]); the first
    row has the empty row before it. *)
Fixpoint with_previous {A B} (f : Row A -> Row A -> Row B) (prev : Row A)
    (rs : Series (Row A)) : Series (Row B) :=
  match rs with
  | [] => []
  | (d, r) :: rs' => (d, f prev r) :: with_previous f r rs'
  end.

(** [fillna(method='pad')]: a missing cell takes the last value seen in its
    column. *)
Fixpoint pad_rows {A} (cols : list string) (last : Row A)
    (rs : Series (Row A)) : Series (Row A) :=
  match rs with
  | [] => []
  | (d, r) :: rs' =>
      let r' := build_row cols (fun c =>
                  match cell c r with
                  | Some v => Some v
                  | None => cell c last
                  end) in
      (d, r') :: pad_rows cols r' rs'
  end.

(** The [fill_method] of [pct_change].  [pad] is the library's default:
    ['pad'] up to pandas 2.x ([true]), no filling from pandas 3 on
    ([false]). *)
Definition fill (pad : bool) (df : DataFrame price) : Series (Row price) :=
  if pad then pad_rows (columns df) [] (rows df) else rows df.

(** One row of [data / data.shift(1) - 1]. *)
Definition pct_row (cols : list string) (prev cur : Row price) : Row Q :=
  build_row cols (fun c => pct_cell (cell c prev) (cell c cur)).

(** [DataFrame.pct_change()] with [periods=1]. *)
Definition pct_change (pad : bool) (df : DataFrame price) : DataFrame Q :=
  mkFrame (columns df)
          (with_previous (pct_row (columns df)) [] (fill pad df)).

(** Python truth value of an optional string: [None] and the empty string
    are false. *)
Definition truthy_string (o : option string) : option string :=
  match o with
  | Some EmptyString | None => None
  | Some b => Some b
  end.

(** [fetch_data] (data_loader.py:31-50): one call of the collaborator for the
    tickers and one for the benchmark when there is one; each call is
    recorded in the world. *)
Definition fetch_data (pad : bool) (yf_download : provider) (self : t)
    (w : world) : world * (t * DataFrame price) :=
  let d := yf_download (tickers self) (start_date self) (end_date self) in
  let w1 := (tickers self, start_date self, end_date self) :: w in
  match truthy_string (benchmark_ticker self) with
  | Some b =>
      let bd := yf_download [b] (start_date self) (end_date self) in
      let w2 := ([b], start_date self, end_date self) :: w1 in
      (w2, (mk (tickers self) (start_date self) (end_date self)
               (benchmark_ticker self) (Some d) (Some bd)
               (Some (dropna (pct_change pad bd))) (weights self), d))
  | None =>
      (w1, (mk (tickers self) (start_date self) (end_date self)
               (benchmark_ticker self) (Some d) (benchmark_data self)
               (benchmark_returns self) (weights self), d))
  end.

(** [compute_daily_returns] (data_loader.py:52-56). *)
Definition compute_daily_returns (pad : bool) (self : t)
    : result (DataFrame Q) :=
  match data self with
  | None => Raise StockDataEmpty
  | Some df => Ok (dropna (pct_change pad df))
  end.

(** [daily_returns[tickers_in_data].dot(weights)] on one row: the sum of
    cell times weight, [NaN] ([None]) as soon as a cell is missing. *)
Fixpoint dot_row (cols : list string) (ws : list Q) (r : Row Q) : option Q :=
  match cols, ws with
  | c :: cols', x :: ws' =>
      match cell c r, dot_row cols' ws' r with
      | Some v, Some acc => Some (v * x + acc)
      | _, _ => None
      end
  | _, _ => Some 0
  end.

Definition mem_string (c : string) (cols : list string) : bool :=
  existsb (String.eqb c) cols.

(** [compute_portfolio_returns] (data_loader.py:58-77). *)
Definition compute_portfolio_returns (pad : bool) (self : t)
    : result (Series (option Q) * option (DataFrame Q)) :=
  daily_returns <- compute_daily_returns pad self ;;
  let tickers_in_data :=
    filter (fun ticker => mem_string ticker (columns daily_returns))
           (tickers self) in
  match tickers_in_data with
  | [] => Raise NoTickersFound
  | _ =>
      if negb (Nat.eqb (List.length tickers_in_data)
                       (List.length (weights self))) then
        Raise (StocksWeightsMismatch (List.length tickers_in_data)
                                     (List.length (weights self)))
      else
        Ok (map (fun dr => (fst dr, dot_row tickers_in_data (weights self) (snd dr)))
                (rows daily_returns),
            benchmark_returns self)
  end.

(** [Series.cumprod()] ([skipna=True]): the running product; a missing
    value stays missing and leaves the product as it was. *)
Fixpoint cumprod_from (acc : option Q) (s : Series (option Q))
    : Series (option Q) :=
  match s with
  | [] => []
  | (d, None) :: s' => (d, None) :: cumprod_from acc s'
  | (d, Some x) :: s' =>
      let y := match acc with Some a => a * x | None => x end in
      (d, Some y) :: cumprod_from (Some y) s'
  end.

Definition cumprod (s : Series (option Q)) : Series (option Q) :=
  cumprod_from None s.

(** [1 + series]. *)
Definition add1 (s : Series (option Q)) : Series (option Q) :=
  map (fun dv => (fst dv, option_map (Qplus 1) (snd dv))) s.

(** [compute_cumulative_returns] (data_loader.py:79-83). *)
Definition compute_cumulative_returns (pad : bool) (self : t)
    : result (Series (option Q)) :=
  pr <- compute_portfolio_returns pad self ;;
  Ok (cumprod (add1 (fst pr))).

End StockDataFetcher.

(** ** risk_metrics.py: class RiskMetrics *)

(** *** Sums, moments and the library estimators *)

Definition total (l : list Q) : Q := fold_right Qplus 0 l.

(** The number of observations, as a float. *)
Definition count {A} (l : list A) : Q := inject_Z (Z.of_nat (List.length l)).

Definition average (l : list Q) : Q := total l / count l.

(** Sum over the paired observations of the products of the deviations from
    the two means. *)
Definition co_moment (ps : list (Q * Q)) : Q :=
  let mx := average (map fst ps) in
  let my := average (map snd ps) in
  total (map (fun p => (fst p - mx) * (snd p - my)) ps).

Definition self_pairs (l : list Q) : list (Q * Q) := map (fun x => (x, x)) l.

(** Sum of the squared deviations from the mean. *)
Definition sq_dev (l : list Q) : Q := co_moment (self_pairs l).

(** [np.cov(x, y)[0, 1]] with its default [ddof=1]: the co-moment scaled by
    [1 / (N - 1)]; [0 * inf = NaN] for one observation. *)
Definition np_cov (ps : list (Q * Q)) : xfloat :=
  match ps with
  | [] => NaN
  | _ => xmul (Fin (co_moment ps)) (xdiv (Fin 1) (Fin (count ps - 1)))
  end.

(** [np.var(y)] with its default [ddof=0]: divisor [N]. *)
Definition np_var (l : list Q) : xfloat :=
  xdiv (Fin (sq_dev l)) (Fin (count l)).

(** pandas [var()] with its default [ddof=1]: divisor [N - 1], [NaN] for
    fewer than two observations. *)
Definition pd_var (l : list Q) : xfloat :=
  if (List.length l <=? 1)%nat then NaN
  else Fin (sq_dev l / (count l - 1)).

(** pandas [mean()]. *)
Definition pd_mean (l : list Q) : xfloat :=
  xdiv (Fin (total l)) (Fin (count l)).

(** Population covariance and variance (divisor [N]), as the specification
    words them; the code is compared with these. *)
Definition population_cov (ps : list (Q * Q)) : xfloat :=
  xdiv (Fin (co_moment ps)) (Fin (count ps)).

Definition population_var (l : list Q) : xfloat :=
  xdiv (Fin (sq_dev l)) (Fin (count l)).

Definition population_beta (ps : list (Q * Q)) : xfloat :=
  xdiv (population_cov ps) (population_var (map snd ps)).

(** *** Percentiles *)

Fixpoint insert_sorted (x : Q) (l : list Q) : list Q :=
  match l with
  | [] => [x]
  | y :: l' => if Qle_bool x y then x :: l else y :: insert_sorted x l'
  end.

Definition sort (l : list Q) : list Q := fold_right insert_sorted [] l.

(** numpy's [_lerp(a, b, t)]. *)
Definition lerp (a b t : Q) : Q :=
  if Qle_bool (1 # 2) t then b - (b - a) * (1 - t) else a + (b - a) * t.

(** [np.percentile(a, q)] with the default method ['linear']: the virtual
    index [q / 100 * (N - 1)] in the sorted sample, interpolated between its
    two neighbours. *)
Definition np_percentile (a : list Q) (q : Q) : result xfloat :=
  if negb (Qle_bool 0 q && Qle_bool q 100) then Raise PercentileOutOfRange
  else
    match a with
    | [] => Ok NaN
    | x :: _ =>
        let s := sort a in
        let last := (List.length a - 1)%nat in
        let virtual := q / 100 * (count a - 1) in
        let previous := Nat.min (Z.to_nat (Qfloor virtual)) last in
        let next := Nat.min (previous + 1) last in
        let gamma := virtual - inject_Z (Qfloor virtual) in
        Ok (Fin (lerp (nth previous s x) (nth next s x) gamma))
    end.

(** *** Running products, running maxima and minima *)

(** [np.cumprod]: [out[0] = a[0]], [out[i] = out[i-1] * a[i]]. *)
Fixpoint np_cumprod_acc (acc : Q) (l : list Q) : list Q :=
  match l with
  | [] => []
  | x :: l' => let y := acc * x in y :: np_cumprod_acc y l'
  end.

Definition np_cumprod (l : list Q) : list Q :=
  match l with
  | [] => []
  | x :: l' => x :: np_cumprod_acc x l'
  end.

Definition Qmax (a b : Q) : Q := if Qle_bool a b then b else a.

(** [cummax]. *)
Fixpoint cummax_acc (acc : Q) (l : list Q) : list Q :=
  match l with
  | [] => []
  | x :: l' => let m := Qmax acc x in m :: cummax_acc m l'
  end.

Definition cummax (l : list Q) : list Q :=
  match l with
  | [] => []
  | x :: l' => x :: cummax_acc x l'
  end.

(** [a <= b] on floats other than [NaN]. *)
Definition xle (a b : xfloat) : bool :=
  match a, b with
  | NInf, _ | _, PInf => true
  | Fin x, Fin y => Qle_bool x y
  | _, _ => false
  end.

(** The smaller of two floats; a [NaN] is skipped. *)
Definition xmin2 (a b : xfloat) : xfloat :=
  match a, b with
  | NaN, _ => b
  | _, NaN => a
  | _, _ => if xle a b then a else b
  end.

(** pandas [min()] ([skipna=True]): [NaN] when nothing else is there. *)
Definition xmin (l : list xfloat) : xfloat := fold_left xmin2 l NaN.

(** *** Alignment *)

(** [pd.concat([p, b], axis=1).dropna()] on two series with unique dates: the
    dates of both, with the two values. *)
Fixpoint align (p b : Series Q) : list (Q * Q) :=
  match p with
  | [] => []
  | (d, x) :: p' =>
      match lookup_date d b with
      | Some y => (x, y) :: align p' b
      | None => align p' b
      end
  end.

(** [pd.concat([df, p], axis=1).dropna()]: the rows of [df] with no missing
    cell whose date is in [p] too, with the value of [p]. *)
Fixpoint align_frame (cols : list string) (rs : Series (Row Q)) (p : Series Q)
    : list (Row Q * Q) :=
  match rs with
  | [] => []
  | (d, r) :: rs' =>
      match lookup_date d p with
      | Some y =>
          if complete cols r then (r, y) :: align_frame cols rs' p
          else align_frame cols rs' p
      | None => align_frame cols rs' p
      end
  end.

(** The column [c] of the aligned table, paired with the last column. *)
Fixpoint column_pairs (c : string) (al : list (Row Q * Q)) : list (Q * Q) :=
  match al with
  | [] => []
  | (r, y) :: al' =>
      match cell c r with
      | Some x => (x, y) :: column_pairs c al'
      | None => column_pairs c al'
      end
  end.

Module RiskMetrics.

Record t : Type := mk {
  portfolio_returns : Series Q;
  benchmark_returns : option (Series Q);
  risk_free_rate : Q
}.

(** [__init__] (risk_metrics.py:7-15), with the default risk-free rate. *)
Definition init (portfolio_returns : Series Q)
    (benchmark_returns : option (Series Q)) (risk_free_rate : option Q) : t :=
  mk portfolio_returns benchmark_returns
     (match risk_free_rate with Some r => r | None => 2 # 100 end).

(** [compute_var] (risk_metrics.py:21-23). *)
Definition compute_var (self : t) (confidence_level : Q) : result xfloat :=
  np_percentile (values (portfolio_returns self)) ((1 - confidence_level) * 100).

Definition default_confidence_level : Q := 95 # 100.

(** [compute_beta] (risk_metrics.py:30-43). *)
Definition compute_beta (self : t) : result xfloat :=
  match benchmark_returns self with
  | None => Raise BetaNeedsBenchmark
  | Some b =>
      let aligned_data := align (portfolio_returns self) b in
      let covariance := np_cov aligned_data in
      let variance := np_var (map snd aligned_data) in
      Ok (xdiv covariance variance)
  end.

(** [compute_max_drawdown] (risk_metrics.py:45-50). *)
Definition compute_max_drawdown (self : t) : result xfloat :=
  let cumulative_returns :=
    np_cumprod (map (Qplus 1) (values (portfolio_returns self))) in
  let rolling_max := cummax cumulative_returns in
  let drawdown :=
    map (fun cm => xdiv (Fin (fst cm - snd cm)) (Fin (snd cm)))
        (combine cumulative_returns rolling_max) in
  Ok (xmin drawdown).

(** The asset betas of [compute_marginal_var] (risk_metrics.py:75-77):
    [aligned_data.cov().iloc[:-1, -1] / aligned_data.var().iloc[-1]], both
    with the pandas default [ddof=1]. *)
Definition asset_betas (self : t) (asset_returns_df : DataFrame Q)
    : Row xfloat :=
  let aligned_data :=
    align_frame (columns asset_returns_df) (rows asset_returns_df)
                (portfolio_returns self) in
  map (fun c =>
         (c, xdiv (np_cov (column_pairs c aligned_data))
                  (pd_var (map snd aligned_data))))
      (columns asset_returns_df).

(** [compute_marginal_var] (risk_metrics.py:65-83). *)
Definition compute_marginal_var (self : t) (asset_returns_df : DataFrame Q)
    : result (Row xfloat) :=
  if negb (Nat.eqb (shape0 asset_returns_df)
                   (List.length (portfolio_returns self))) then
    Raise AssetLengthMismatch
  else
    let betas := asset_betas self asset_returns_df in
    portfolio_var <- compute_var self default_confidence_level ;;
    Ok (map (fun cb => (fst cb, xmul (snd cb) portfolio_var)) betas).

(** The square root of the float library, a parameter of the metrics that
    take a standard deviation. *)
Section Sqrt.
Variable fsqrt : Q -> Q.

Definition xsqrt (a : xfloat) : xfloat :=
  match a with
  | Fin q => if is_neg q then NaN else Fin (fsqrt q)
  | PInf => PInf
  | NInf | NaN => NaN
  end.

(** pandas [std()] ([ddof=1]). *)
Definition pd_std (l : list Q) : xfloat := xsqrt (pd_var l).

(** [compute_volatility] (risk_metrics.py:17-19). *)
Definition compute_volatility (self : t) : result xfloat :=
  Ok (xmul (pd_std (values (portfolio_returns self))) (Fin (fsqrt 252))).

(** [compute_sharpe_ratio] (risk_metrics.py:25-28). *)
Definition compute_sharpe_ratio (self : t) : result xfloat :=
  let excess_return :=
    xsub (pd_mean (values (portfolio_returns self)))
         (Fin (risk_free_rate self / 252)) in
  Ok (xdiv excess_return (pd_std (values (portfolio_returns self)))).

(** [compute_tracking_error] (risk_metrics.py:52-63). *)
Definition compute_tracking_error (self : t) : result xfloat :=
  match benchmark_returns self with
  | None => Raise TrackingErrorNeedsBenchmark
  | Some b =>
      let aligned_data := align (portfolio_returns self) b in
      Ok (xmul (pd_std (map (fun pb => fst pb - snd pb) aligned_data))
               (Fin (fsqrt 252)))
  end.

End Sqrt.

End RiskMetrics.

(** A rational square root, exact on the squares of rationals: the integer
    root of [n * d] over [d] for [n / d]. *)
Definition sqrt_down (q : Q) : Q := Z.sqrt (Qnum q * Zpos (Qden q)) # Qden q.

(** ** Sample data *)

Definition usd (n : positive) : price := mkPrice n 1.

(** Two assets over three dates; AAA has no price on the first date. *)
Definition late_listing : DataFrame price :=
  mkFrame ["AAA"; "BBB"]%string
    [(0%Z, [("BBB"%string, usd 50)]);
     (1%Z, [("AAA"%string, usd 100); ("BBB"%string, usd 55)]);
     (2%Z, [("AAA"%string, usd 110); ("BBB"%string, usd 60)])].

(** A pipeline that has fetched [df]. *)
Definition fetched (tickers : list string) (ws : list Q) (df : DataFrame price)
    : StockDataFetcher.t :=
  StockDataFetcher.mk tickers "2023-01-01" "2024-01-01" None (Some df) None
                      None ws.

(** The specification's example: AAA at 100, 110, 99 and BBB at 50, 55, 60. *)
Definition two_assets : DataFrame price :=
  mkFrame ["AAA"; "BBB"]%string
    [(0%Z, [("AAA"%string, usd 100); ("BBB"%string, usd 50)]);
     (1%Z, [("AAA"%string, usd 110); ("BBB"%string, usd 55)]);
     (2%Z, [("AAA"%string, usd 99); ("BBB"%string, usd 60)])].

(** A collaborator that answers every request with the table [two_assets]. *)
Definition sample_provider : provider := fun _ _ _ => two_assets.

(** A pipeline over AAA and BBB with no weights given, as constructed. *)
Definition fresh_pipeline : StockDataFetcher.t :=
  StockDataFetcher.mk ["AAA"; "BBB"]%string "2023-01-01" "2024-01-01" None
                      None None None (StockDataFetcher.equal_weights 2).

(** The return table of one asset [c] that holds the series [s]. *)
Definition single_column (c : string) (s : Series Q) : DataFrame Q :=
  mkFrame [c] (map (fun dx => (fst dx, [(c, snd dx)])) s).

(** ** Predicates of the statements *)

(** A drawdown value between total loss and none. *)
Definition bounded_drawdown (x : xfloat) : Prop :=
  exists v, x = Fin v /\ -1 <= v /\ v <= 0.

(** A point of the growth curve that is not negative, under a positive
    running maximum. *)
Definition below_peak (cm : Q * Q) : Prop :=
  0 <= fst cm /\ fst cm <= snd cm /\ 0 < snd cm.

(** A table with no missing cell. *)
Definition full_table {A} (df : DataFrame A) : Prop :=
  Forall (fun dr => complete (columns df) (snd dr) = true) (rows df).

(** The configured tickers that are columns of the table, in the configured
    order (data_loader.py:65). *)
Definition resolved (tickers : list string) (df : DataFrame price)
    : list string :=
  filter (fun ticker => StockDataFetcher.mem_string ticker (columns df)) tickers.

(** * Properties *)

(** ** Construction of the pipeline *)

Section Construction.
Import StockDataFetcher.

Variables (start_date end_date : string) (benchmark_ticker : option string).

(** The constructor never touches the collaborator. *)
Lemma init_world (tickers : list string) (weights : option (list Q)) (w : world) :
  fst (init tickers start_date end_date weights benchmark_ticker w) = w.
Proof.
  unfold init.
  destruct (truthy weights); [|reflexivity].
  destruct (negb _); reflexivity.
Qed.

Lemma length_equal_weights (n : nat) : List.length (equal_weights n) = n.
Proof. apply repeat_length. Qed.

(** A fetch, unlike the constructor, leaves its call in the world. *)
Lemma fetch_data_recorded (pad : bool) (yf_download : provider) (self : t)
    (w : world) :
  In (tickers self, StockDataFetcher.start_date self,
      StockDataFetcher.end_date self)
     (fst (fetch_data pad yf_download self w)).
Proof.
  unfold fetch_data.
  destruct (truthy_string (StockDataFetcher.benchmark_ticker self)); cbn; auto.
Qed.

End Construction.

(** C4, as stated, fails: one ticker and the explicit empty weight vector
    differ in length, and the constructor returns an object. *)
Lemma init_empty_weights_no_error :
  List.length (@nil Q) <> List.length ["AAA"%string] /\
  ~ fails_with
      (snd (StockDataFetcher.init ["AAA"%string] "2023-01-01" "2024-01-01"
              (Some []) None []))
      ConfigurationError.
Proof.
  split; [discriminate|].
  intros [e [H _]]. discriminate H.
Qed.

(** C4, amended: a non-empty weight vector whose length differs from the
    number of tickers makes the constructor raise the weight-mismatch
    [ValueError] (a [ConfigurationError]), whatever the tickers, and the
    collaborator has not been called: the world is unchanged. *)
Theorem init_length_mismatch
    (tickers : list string) (start_date end_date : string)
    (ws : list Q) (benchmark_ticker : option string) (w : world) :
  ws <> [] ->
  List.length ws <> List.length tickers ->
  StockDataFetcher.init tickers start_date end_date (Some ws) benchmark_ticker w
    = (w, Raise WeightsTickersMismatch)
  /\ fails_with
       (snd (StockDataFetcher.init tickers start_date end_date (Some ws)
               benchmark_ticker w))
       ConfigurationError.
Proof.
  intros Hne Hlen.
  assert (E : StockDataFetcher.init tickers start_date end_date (Some ws)
                benchmark_ticker w = (w, Raise WeightsTickersMismatch)).
  { unfold StockDataFetcher.init.
    destruct ws as [|x ws]; [contradiction|]. cbn [StockDataFetcher.truthy].
    apply Nat.eqb_neq in Hlen. rewrite Hlen. reflexivity. }
  split; [exact E|].
  rewrite E. exists WeightsTickersMismatch. split; reflexivity.
Qed.

(** Two tickers, one weight. *)
Lemma init_length_mismatch_witness :
  StockDataFetcher.init ["AAA"; "BBB"]%string "2023-01-01" "2024-01-01"
    (Some [1]) None [] = ([], Raise WeightsTickersMismatch)
  /\ fails_with
       (snd (StockDataFetcher.init ["AAA"; "BBB"]%string "2023-01-01"
               "2024-01-01" (Some [1]) None []))
       ConfigurationError.
Proof.
  apply (init_length_mismatch ["AAA"; "BBB"]%string "2023-01-01" "2024-01-01"
           [1] None []).
  - discriminate.
  - simpl. lia.
Defined.

(** C10: with the explicit empty weight vector the constructor does what it
    does with no weight vector: it returns an object, for every ticker list
    (so for every non-empty one), whose weights are [1/N] for each of the [N]
    tickers; the collaborator is not called. *)
Theorem init_empty_weights_equal_weight
    (tickers : list string) (start_date end_date : string)
    (benchmark_ticker : option string) (w : world) :
  let N := List.length tickers in
  StockDataFetcher.init tickers start_date end_date (Some []) benchmark_ticker w
    = StockDataFetcher.init tickers start_date end_date None benchmark_ticker w
  /\ exists self,
       StockDataFetcher.init tickers start_date end_date (Some [])
         benchmark_ticker w = (w, Ok self)
       /\ StockDataFetcher.tickers self = tickers
       /\ List.length (StockDataFetcher.weights self) = N
       /\ Forall (fun x => x = 1 / inject_Z (Z.of_nat N))
                 (StockDataFetcher.weights self).
Proof.
  intro N. split; [reflexivity|].
  eexists. split; [reflexivity|]. cbn.
  split; [reflexivity|]. split.
  - apply length_equal_weights.
  - apply Forall_forall. intros x Hx.
    apply repeat_spec in Hx. exact Hx.
Qed.

(** ** Daily returns *)

Section DailyReturns.
Import StockDataFetcher.

Lemma cell_build_row {B} (cols : list string) (g : string -> option B) (c : string) :
  cell c (build_row cols g) = if mem_string c cols then g c else None.
Proof.
  induction cols as [|c' cols IH]; [reflexivity|].
  cbn [build_row mem_string existsb].
  destruct (String.eqb c c') eqn:E.
  - apply String.eqb_eq in E. subst c'. cbn [orb].
    destruct (g c) eqn:G.
    + cbn [cell]. rewrite String.eqb_refl. reflexivity.
    + rewrite IH. fold (mem_string c cols).
      destruct (mem_string c cols); reflexivity.
  - cbn [orb]. fold (mem_string c cols).
    destruct (g c'); [cbn [cell]; rewrite E|]; exact IH.
Qed.

Lemma mem_string_In (c : string) (cols : list string) :
  mem_string c cols = true <-> In c cols.
Proof.
  unfold mem_string. rewrite existsb_exists. split.
  - intros [x [Hx E]]. apply String.eqb_eq in E. subst. exact Hx.
  - intro H. exists c. split; [exact H|apply String.eqb_refl].
Qed.

Lemma complete_spec {B} (cols : list string) (r : Row B) :
  complete cols r = true <-> forall c, In c cols -> exists v, cell c r = Some v.
Proof.
  unfold complete. rewrite forallb_forall. split; intros H c Hc.
  - specialize (H c Hc). destruct (cell c r) as [v|]; [eauto|discriminate].
  - destruct (H c Hc) as [v E]. rewrite E. reflexivity.
Qed.

Lemma index_with_previous {A B} (f : Row A -> Row A -> Row B) (prev : Row A)
    (rs : Series (Row A)) :
  index (with_previous f prev rs) = index rs.
Proof.
  revert prev. induction rs as [|[d r] rs IH]; intro prev; [reflexivity|].
  cbn. f_equal. apply IH.
Qed.

Lemma index_pad_rows {A} (cols : list string) (last : Row A) (rs : Series (Row A)) :
  index (pad_rows cols last rs) = index rs.
Proof.
  revert last. induction rs as [|[d r] rs IH]; intro last; [reflexivity|].
  cbn. f_equal. apply IH.
Qed.

Lemma index_fill (pad : bool) (df : DataFrame price) :
  index (fill pad df) = index (rows df).
Proof. destruct pad; [apply index_pad_rows|reflexivity]. Qed.

(** The row computed at a date that follows another one. *)
Lemma with_previous_middle {A B} (f : Row A -> Row A -> Row B) (prev : Row A)
    (l1 l2 : Series (Row A)) (d0 d1 : date) (r0 r1 : Row A) :
  exists l1' l2',
    with_previous f prev (l1 ++ (d0, r0) :: (d1, r1) :: l2)
      = l1' ++ (d1, f r0 r1) :: l2'.
Proof.
  revert prev. induction l1 as [|[d r] l1 IH]; intro prev.
  - exists [(d0, f prev r0)], (with_previous f r1 l2). reflexivity.
  - destruct (IH r) as [l1' [l2' E]].
    exists ((d, f prev r) :: l1'), l2'. cbn. rewrite E. reflexivity.
Qed.

Lemma unique_date {A} (s : Series A) (d : date) (a b : A) :
  NoDup (index s) -> In (d, a) s -> In (d, b) s -> a = b.
Proof.
  induction s as [|[d' v] s IH]; intros ND Ha Hb; [contradiction|].
  cbn in ND. inversion ND as [|? ? Hn ND']; subst.
  destruct Ha as [Ha|Ha], Hb as [Hb|Hb].
  - congruence.
  - inversion Ha; subst. exfalso. apply Hn.
    change d with (fst (d, b)). apply in_map. exact Hb.
  - inversion Hb; subst. exfalso. apply Hn.
    change d with (fst (d, a)). apply in_map. exact Ha.
  - apply IH; assumption.
Qed.

End DailyReturns.

(** C5, as stated, fails, with or without the library's filling: BBB has a
    price on dates 0 and 1, AAA has none on date 0, and the result has no
    row for date 1, so the return of BBB on date 1 is gone. *)
Lemma daily_returns_lose_other_asset :
  cell "BBB" [("BBB"%string, usd 50)] = Some (usd 50) /\
  cell "BBB" [("AAA"%string, usd 100); ("BBB"%string, usd 55)] = Some (usd 55) /\
  (exists out,
      StockDataFetcher.compute_daily_returns true
        (fetched ["AAA"; "BBB"]%string [1 # 2; 1 # 2] late_listing) = Ok out
      /\ lookup_date 1%Z (rows out) = None) /\
  (exists out,
      StockDataFetcher.compute_daily_returns false
        (fetched ["AAA"; "BBB"]%string [1 # 2; 1 # 2] late_listing) = Ok out
      /\ lookup_date 1%Z (rows out) = None).
Proof.
  repeat split; eexists; split; reflexivity.
Qed.

(** C5, amended: the date is dropped whole as soon as one asset has no
    return on it.  For two consecutive rows (dates [d0], [d1]) of the price
    table as the library's fill method leaves it, and an asset with a price
    on both, the return of the asset on [d1] is in the result if and only if
    every asset of the table has a price on both rows. *)
Theorem daily_returns_row_kept_iff
    (pad : bool) (self : StockDataFetcher.t) (df : DataFrame price)
    (l1 l2 : Series (Row price)) (d0 d1 : date) (r0 r1 : Row price)
    (c : string) (p0 p1 : price) :
  StockDataFetcher.data self = Some df ->
  NoDup (index (rows df)) ->
  StockDataFetcher.fill pad df = l1 ++ (d0, r0) :: (d1, r1) :: l2 ->
  In c (columns df) ->
  cell c r0 = Some p0 ->
  cell c r1 = Some p1 ->
  exists out,
    StockDataFetcher.compute_daily_returns pad self = Ok out /\
    ((exists R, In (d1, R) (rows out) /\
                cell c R = Some (price_value p1 / price_value p0 - 1))
     <->
     (forall c', In c' (columns df) ->
                 is_some (cell c' r0) = true /\ is_some (cell c' r1) = true)).
Proof.
  intros Hdata ND Hfill Hc H0 H1.
  unfold StockDataFetcher.compute_daily_returns. rewrite Hdata.
  eexists. split; [reflexivity|].
  set (cols := columns df).
  set (F := StockDataFetcher.pct_row cols).
  assert (HF : forall c', In c' cols ->
             cell c' (F r0 r1)
             = StockDataFetcher.pct_cell (cell c' r0) (cell c' r1)).
  { intros c' Hc'. unfold F, StockDataFetcher.pct_row.
    rewrite cell_build_row.
    apply mem_string_In in Hc'. rewrite Hc'. reflexivity. }
  destruct (with_previous_middle F [] l1 l2 d0 d1 r0 r1) as [l1' [l2' E]].
  assert (Hin : In (d1, F r0 r1)
                   (StockDataFetcher.with_previous F [] (StockDataFetcher.fill pad df))).
  { rewrite Hfill, E. apply in_or_app. right. left. reflexivity. }
  assert (ND' : NoDup (index (StockDataFetcher.with_previous F []
                                (StockDataFetcher.fill pad df)))).
  { rewrite index_with_previous, index_fill. exact ND. }
  cbn [rows dropna StockDataFetcher.pct_change columns].
  fold cols. fold F.
  split.
  - intros [R [HR _]] c' Hc'.
    apply filter_In in HR. destruct HR as [HR Hcomp]. cbn [snd] in Hcomp.
    assert (R = F r0 r1) by (eapply unique_date; eassumption). subst R.
    rewrite complete_spec in Hcomp.
    destruct (Hcomp c' Hc') as [v Hv]. rewrite (HF c' Hc') in Hv.
    destruct (cell c' r0), (cell c' r1); cbn in Hv; try discriminate.
    split; reflexivity.
  - intro Hall. exists (F r0 r1). split.
    + apply filter_In. split; [exact Hin|]. cbn [snd].
      apply complete_spec. intros c' Hc'.
      rewrite (HF c' Hc'). destruct (Hall c' Hc') as [A0 A1].
      destruct (cell c' r0), (cell c' r1); try discriminate.
      eexists. reflexivity.
    + rewrite (HF c Hc), H0, H1. reflexivity.
Qed.

(** The first two dates of the complete table [two_assets], without filling. *)
Lemma daily_returns_row_kept_iff_witness :
  exists out,
    StockDataFetcher.compute_daily_returns false
      (fetched ["AAA"; "BBB"]%string [1 # 2; 1 # 2] two_assets) = Ok out /\
    ((exists R, In (1%Z, R) (rows out) /\
                cell "AAA" R
                = Some (price_value (usd 110) / price_value (usd 100) - 1))
     <->
     (forall c', In c' (columns two_assets) ->
        is_some (cell c' [("AAA"%string, usd 100); ("BBB"%string, usd 50)])
          = true /\
        is_some (cell c' [("AAA"%string, usd 110); ("BBB"%string, usd 55)])
          = true)).
Proof.
  apply (daily_returns_row_kept_iff false
           (fetched ["AAA"; "BBB"]%string [1 # 2; 1 # 2] two_assets)
           two_assets []
           [(2%Z, [("AAA"%string, usd 99); ("BBB"%string, usd 60)])]
           0%Z 1%Z).
  - reflexivity.
  - cbn. repeat constructor; cbn; intuition discriminate.
  - reflexivity.
  - cbn. auto.
  - reflexivity.
  - reflexivity.
Defined.

(** ** Cumulative returns *)

Lemma length_cumprod_acc (a : Q) (l : list Q) :
  List.length (np_cumprod_acc a l) = List.length l.
Proof.
  revert a. induction l as [|x l IH]; intro a; [reflexivity|].
  cbn. f_equal. apply IH.
Qed.

Lemma length_cumprod (l : list Q) : List.length (np_cumprod l) = List.length l.
Proof.
  destruct l as [|x l]; [reflexivity|]. cbn. f_equal. apply length_cumprod_acc.
Qed.

(** Each value of a running product is the one before it times the entry. *)
Lemma cumprod_acc_step (a : Q) (l : list Q) (t : nat) (d : Q) :
  (t < List.length l)%nat ->
  nth t (np_cumprod_acc a l) d = nth t (a :: np_cumprod_acc a l) d * nth t l d.
Proof.
  revert a t. induction l as [|x l IH]; intros a t Ht; [cbn in Ht; lia|].
  destruct t as [|t]; [reflexivity|].
  cbn [np_cumprod_acc nth]. cbn in Ht.
  rewrite (IH (a * x) t) by lia. reflexivity.
Qed.

Lemma cumprod_step (l : list Q) (t : nat) (d : Q) :
  (1 <= t < List.length l)%nat ->
  nth t (np_cumprod l) d = nth (t - 1) (np_cumprod l) d * nth t l d.
Proof.
  intros [H1 H2]. destruct l as [|x l]; [cbn in H2; lia|].
  destruct t as [|t]; [lia|]. cbn in H2.
  replace (S t - 1)%nat with t by lia.
  change (nth t (np_cumprod_acc x l) d
          = nth t (x :: np_cumprod_acc x l) d * nth t l d).
  apply cumprod_acc_step. lia.
Qed.

Lemma cumprod_head (l : list Q) (d : Q) : nth 0 (np_cumprod l) d = nth 0 l d.
Proof. destruct l; reflexivity. Qed.

Section Cumulative.
Import StockDataFetcher.

(** On a series with no missing value, pandas' running product is numpy's. *)
Lemma cumprod_from_defined (s : Series (option Q)) (xs : list Q) (a : Q) :
  values s = map Some xs ->
  index (cumprod_from (Some a) s) = index s /\
  values (cumprod_from (Some a) s) = map Some (np_cumprod_acc a xs).
Proof.
  revert xs a. induction s as [|[d v] s IH]; intros xs a H.
  - destruct xs; [split; reflexivity|discriminate].
  - destruct xs as [|x xs]; [discriminate|].
    cbn in H. injection H as Hv Hs. subst v.
    destruct (IH xs (a * x) Hs) as [I V]. unfold index, values in I, V.
    unfold index, values. cbn. rewrite I, V. split; reflexivity.
Qed.

Lemma cumprod_defined (s : Series (option Q)) (xs : list Q) :
  values s = map Some xs ->
  index (StockDataFetcher.cumprod s) = index s /\
  values (StockDataFetcher.cumprod s) = map Some (np_cumprod xs).
Proof.
  intro H. destruct s as [|[d v] s].
  - destruct xs; [split; reflexivity|discriminate].
  - destruct xs as [|x xs]; [discriminate|].
    cbn in H. injection H as Hv Hs. subst v.
    destruct (cumprod_from_defined s xs x Hs) as [I V].
    unfold index, values in I, V.
    unfold StockDataFetcher.cumprod, index, values. cbn.
    rewrite I, V. split; reflexivity.
Qed.

Lemma add1_defined (s : Series (option Q)) (xs : list Q) :
  values s = map Some xs ->
  index (add1 s) = index s /\ values (add1 s) = map Some (map (Qplus 1) xs).
Proof.
  revert xs. induction s as [|[d v] s IH]; intros xs H.
  - destruct xs; [split; reflexivity|discriminate].
  - destruct xs as [|x xs]; [discriminate|].
    cbn in H. injection H as Hv Hs. subst v.
    destruct (IH xs Hs) as [I V]. unfold add1, index, values in I, V.
    unfold add1, index, values. cbn. rewrite I, V. split; reflexivity.
Qed.

(** The weighted sum of a row with no missing cell is defined. *)
Lemma dot_row_defined (cols : list string) (ws : list Q) (r : Row Q) :
  (forall c, In c cols -> exists v, cell c r = Some v) ->
  exists x, dot_row cols ws r = Some x.
Proof.
  revert ws. induction cols as [|c cols IH]; intros ws H; [eexists; reflexivity|].
  destruct ws as [|w ws]; [eexists; reflexivity|].
  cbn [dot_row].
  destruct (H c (or_introl eq_refl)) as [v Hv]. rewrite Hv.
  destruct (IH ws) as [x Hx]; [intros; apply H; right; assumption|].
  rewrite Hx. eexists. reflexivity.
Qed.

Lemma defined_values {A} (f : A -> option Q) (l : list A) :
  (forall a, In a l -> exists x, f a = Some x) ->
  exists xs, map f l = map Some xs.
Proof.
  induction l as [|a l IH]; intro H; [exists []; reflexivity|].
  destruct (H a (or_introl eq_refl)) as [x Hx].
  destruct IH as [xs Hxs]; [intros; apply H; right; assumption|].
  exists (x :: xs). cbn. rewrite Hx, Hxs. reflexivity.
Qed.

(** The portfolio return series has no missing value. *)
Lemma portfolio_returns_defined (pad : bool) (self : t)
    (r : Series (option Q)) (b : option (DataFrame Q)) :
  compute_portfolio_returns pad self = Ok (r, b) ->
  exists rv, values r = map Some rv.
Proof.
  unfold compute_portfolio_returns, compute_daily_returns.
  destruct (data self) as [df|]; [|discriminate]. cbn [bind].
  set (dr := dropna (pct_change pad df)).
  set (tk := filter _ (tickers self)).
  destruct tk as [|t0 tl] eqn:Etk; [discriminate|].
  destruct (negb _); [discriminate|].
  intro H. injection H as Hr _. subst r.
  unfold values. rewrite map_map. cbn [snd].
  apply defined_values. intros [d row] Hin.
  apply (dot_row_defined (t0 :: tl) (weights self) row). intros c Hc.
  unfold dr in Hin. cbn [rows dropna] in Hin.
  apply filter_In in Hin. destruct Hin as [_ Hcomp]. cbn [snd] in Hcomp.
  rewrite complete_spec in Hcomp. apply Hcomp.
  assert (Hc' : In c (filter (fun ticker => mem_string ticker (columns dr))
                        (tickers self))) by (fold tk; rewrite Etk; exact Hc).
  apply filter_In in Hc'. destruct Hc' as [_ Hm].
  apply mem_string_In in Hm. exact Hm.
Qed.

End Cumulative.

(** C6: when the portfolio returns [r] are computed, the cumulative returns
    [c] are computed too; [c] has the length and the dates of [r], neither
    has a missing value, [c[0] = 1 + r[0]] when [r] is not empty, and
    [c[t] = c[t-1] * (1 + r[t])] for [1 <= t < n]. *)
Theorem cumulative_returns_recurrence
    (pad : bool) (self : StockDataFetcher.t)
    (r : Series (option Q)) (b : option (DataFrame Q)) :
  StockDataFetcher.compute_portfolio_returns pad self = Ok (r, b) ->
  exists (c : Series (option Q)) (rv cv : list Q),
    StockDataFetcher.compute_cumulative_returns pad self = Ok c /\
    values r = map Some rv /\
    values c = map Some cv /\
    List.length c = List.length r /\
    index c = index r /\
    ((1 <= List.length r)%nat -> nth 0 cv 0 = 1 + nth 0 rv 0) /\
    (forall t, (1 <= t < List.length r)%nat ->
               nth t cv 0 = nth (t - 1) cv 0 * (1 + nth t rv 0)).
Proof.
  intro H.
  destruct (portfolio_returns_defined pad self r b H) as [rv Hrv].
  destruct (add1_defined r rv Hrv) as [I1 V1].
  destruct (cumprod_defined (StockDataFetcher.add1 r) (map (Qplus 1) rv) V1)
    as [I2 V2].
  assert (Len : List.length r = List.length rv).
  { rewrite <- (length_map snd r), <- (length_map Some rv).
    f_equal. exact Hrv. }
  assert (Nth : forall t, (t < List.length rv)%nat ->
                  nth t (map (Qplus 1) rv) 0 = 1 + nth t rv 0).
  { intros t Ht.
    rewrite (nth_indep _ 0 (Qplus 1 0)) by (rewrite length_map; exact Ht).
    apply map_nth. }
  exists (StockDataFetcher.cumprod (StockDataFetcher.add1 r)), rv,
         (np_cumprod (map (Qplus 1) rv)).
  split.
  { unfold StockDataFetcher.compute_cumulative_returns. rewrite H. reflexivity. }
  split; [exact Hrv|]. split; [exact V2|]. split.
  { rewrite <- (length_map fst (StockDataFetcher.cumprod _)),
            <- (length_map fst r).
    f_equal. unfold index in I1, I2. rewrite I2, I1. reflexivity. }
  split; [rewrite I2; exact I1|]. split.
  - intro Hn. rewrite cumprod_head. apply Nth. lia.
  - intros t Ht. rewrite cumprod_step by (rewrite length_map; lia).
    rewrite Nth by lia. reflexivity.
Qed.

(** The specification's example: returns 0.10 and -0.00455, growth 1.10 and 1.095. *)
Lemma cumulative_returns_recurrence_witness :
  exists (c : Series (option Q)) (rv cv : list Q),
    StockDataFetcher.compute_cumulative_returns false
      (fetched ["AAA"; "BBB"]%string [1 # 2; 1 # 2] two_assets) = Ok c /\
    values [(1%Z, Some (2000 # 20000)); (2%Z, Some (-110 # 24200))]
      = map Some rv /\
    values c = map Some cv /\
    List.length c = 2%nat /\
    index c = [1%Z; 2%Z] /\
    ((1 <= 2)%nat -> nth 0 cv 0 = 1 + nth 0 rv 0) /\
    (forall t, (1 <= t < 2)%nat ->
               nth t cv 0 = nth (t - 1) cv 0 * (1 + nth t rv 0)).
Proof.
  apply (cumulative_returns_recurrence false
           (fetched ["AAA"; "BBB"]%string [1 # 2; 1 # 2] two_assets)
           [(1%Z, Some (2000 # 20000)); (2%Z, Some (-110 # 24200))] None).
  vm_compute. reflexivity.
Defined.

(** ** Value at risk *)

Lemma Forall_insert_sorted (P : Q -> Prop) (x : Q) (l : list Q) :
  P x -> Forall P l -> Forall P (insert_sorted x l).
Proof.
  intros Hx Hl. induction Hl as [|y l Hy Hl IH]; cbn.
  - constructor; [exact Hx|constructor].
  - destruct (Qle_bool x y).
    + constructor; [exact Hx|]. constructor; assumption.
    + constructor; assumption.
Qed.

Lemma Forall_sort (P : Q -> Prop) (l : list Q) : Forall P l -> Forall P (sort l).
Proof.
  intro H. induction H as [|x l Hx Hl IH]; [constructor|].
  cbn. apply Forall_insert_sorted; assumption.
Qed.

Lemma Forall_nth_default (P : Q -> Prop) (l : list Q) (n : nat) (d : Q) :
  Forall P l -> P d -> P (nth n l d).
Proof.
  intros Hl Hd. revert n. induction Hl as [|x l Hx Hl IH]; intros [|n]; cbn; auto.
Qed.

Lemma lerp_same (a b t r : Q) : a == r -> b == r -> lerp a b t == r.
Proof.
  intros Ha Hb. unfold lerp. destruct (Qle_bool (1 # 2) t); rewrite Ha, Hb; ring.
Qed.

Lemma percentile_in_range (c : Q) :
  0 < c -> c < 1 ->
  Qle_bool 0 ((1 - c) * 100) && Qle_bool ((1 - c) * 100) 100 = true.
Proof.
  intros H0 H1. apply andb_true_intro. split; apply Qle_bool_iff; lra.
Qed.

(** C8: on a non-empty series whose returns all equal [r], [compute_var]
    returns [r] for every confidence level strictly between 0 and 1. *)
Theorem var_constant_series (self : RiskMetrics.t) (r c : Q) :
  RiskMetrics.portfolio_returns self <> [] ->
  Forall (fun x => x == r) (values (RiskMetrics.portfolio_returns self)) ->
  0 < c -> c < 1 ->
  exists v, RiskMetrics.compute_var self c = Ok (Fin v) /\ v == r.
Proof.
  intros Hne Hall H0 H1.
  unfold RiskMetrics.compute_var, np_percentile.
  rewrite (percentile_in_range c H0 H1). cbn [negb].
  destruct (values (RiskMetrics.portfolio_returns self)) as [|x l] eqn:E.
  - destruct (RiskMetrics.portfolio_returns self); [contradiction|discriminate].
  - eexists. split; [reflexivity|].
    assert (Hx : x == r) by (inversion Hall; assumption).
    apply lerp_same;
      apply (Forall_nth_default (fun y => y == r));
      solve [apply Forall_sort; exact Hall | exact Hx].
Qed.

(** Three returns of 1%, confidence 95%. *)
Lemma var_constant_series_witness :
  exists v,
    RiskMetrics.compute_var
      (RiskMetrics.mk [(1%Z, 1 # 100); (2%Z, 1 # 100); (3%Z, 1 # 100)] None
                      (2 # 100))
      (95 # 100) = Ok (Fin v)
    /\ v == 1 # 100.
Proof.
  apply (var_constant_series
           (RiskMetrics.mk [(1%Z, 1 # 100); (2%Z, 1 # 100); (3%Z, 1 # 100)]
                           None (2 # 100))
           (1 # 100) (95 # 100)).
  - discriminate.
  - cbn. repeat constructor; reflexivity.
  - reflexivity.
  - reflexivity.
Defined.

(** ** Marginal value at risk *)

(** At the default confidence level the percentile is in range: the value at
    risk of a non-empty series is returned, and it is a number. *)
Lemma compute_var_default_returns (self : RiskMetrics.t) :
  RiskMetrics.portfolio_returns self <> [] ->
  exists v,
    RiskMetrics.compute_var self RiskMetrics.default_confidence_level
    = Ok (Fin v).
Proof.
  intro Hne. unfold RiskMetrics.compute_var, np_percentile.
  change (Qle_bool 0 ((1 - RiskMetrics.default_confidence_level) * 100)
          && Qle_bool ((1 - RiskMetrics.default_confidence_level) * 100) 100)
    with true.
  cbn [negb].
  destruct (RiskMetrics.portfolio_returns self) as [|[d x] l];
    [contradiction|].
  eexists. reflexivity.
Qed.

(** The default percentile never raises the length-mismatch error. *)
Lemma compute_var_default_kind (self : RiskMetrics.t) (e : exn) :
  RiskMetrics.compute_var self RiskMetrics.default_confidence_level = Raise e ->
  kind_of e <> LengthMismatch.
Proof.
  unfold RiskMetrics.compute_var, np_percentile.
  destruct (negb _).
  - intro H. injection H as <-. discriminate.
  - destruct (values (RiskMetrics.portfolio_returns self)); discriminate.
Qed.

(** C9: [compute_marginal_var] fails with the length-mismatch error exactly
    when the number of rows of the table it is given differs from the length
    of the stored portfolio series.  The comparison is on the table and the
    series as supplied: it is the first thing done, and when the lengths are
    equal (and the series is not empty) a result is returned, whatever rows
    the alignment drops afterwards. *)
Theorem marginal_var_length_mismatch_iff
    (self : RiskMetrics.t) (asset_returns_df : DataFrame Q) :
  (fails_with (RiskMetrics.compute_marginal_var self asset_returns_df)
              LengthMismatch
   <-> shape0 asset_returns_df
       <> List.length (RiskMetrics.portfolio_returns self))
  /\ (shape0 asset_returns_df
      <> List.length (RiskMetrics.portfolio_returns self) ->
      RiskMetrics.compute_marginal_var self asset_returns_df
      = Raise AssetLengthMismatch)
  /\ (shape0 asset_returns_df
      = List.length (RiskMetrics.portfolio_returns self) ->
      RiskMetrics.portfolio_returns self <> [] ->
      exists m, RiskMetrics.compute_marginal_var self asset_returns_df = Ok m).
Proof.
  unfold RiskMetrics.compute_marginal_var.
  destruct (Nat.eqb (shape0 asset_returns_df)
                    (List.length (RiskMetrics.portfolio_returns self))) eqn:E;
    cbn [negb].
  - apply Nat.eqb_eq in E. repeat split.
    + intros [e [H K]].
      destruct (RiskMetrics.compute_var self
                  RiskMetrics.default_confidence_level) as [v|e'] eqn:V;
        cbn [bind] in H; [discriminate|].
      injection H as <-. exfalso.
      exact (compute_var_default_kind self e' V K).
    + intro H. contradiction.
    + intro H. contradiction.
    + intros _ Hne.
      destruct (compute_var_default_returns self Hne) as [v Hv]. rewrite Hv.
      eexists. reflexivity.
  - apply Nat.eqb_neq in E. repeat split.
    + intros _. exact E.
    + intros _. exists AssetLengthMismatch. split; reflexivity.
    + intros H. contradiction.
Qed.

(** Equal lengths with dates that do not match: the alignment keeps one row
    of two, and the result is returned. *)
Example marginal_var_after_alignment :
  exists m,
    RiskMetrics.compute_marginal_var
      (RiskMetrics.mk [(1%Z, 1 # 100); (2%Z, 3 # 100)] None (2 # 100))
      (mkFrame ["AAA"%string]
               [(2%Z, [("AAA"%string, 2 # 100)]); (3%Z, [])])
    = Ok m
    /\ List.length
         (align_frame ["AAA"%string]
            [(2%Z, [("AAA"%string, 2 # 100)]); (3%Z, [])]
            [(1%Z, 1 # 100); (2%Z, 3 # 100)]) = 1%nat.
Proof. eexists. split; reflexivity. Qed.

(** ** Maximum drawdown *)

Lemma Qmax_ge_l (a b : Q) : a <= Qmax a b.
Proof.
  unfold Qmax. destruct (Qle_bool a b) eqn:E.
  - apply Qle_bool_iff. exact E.
  - apply Qle_refl.
Qed.

Lemma Qmax_ge_r (a b : Q) : b <= Qmax a b.
Proof.
  unfold Qmax. destruct (Qle_bool a b) eqn:E.
  - apply Qle_refl.
  - apply Qlt_le_weak. apply Qnot_le_lt. intro H.
    apply Qle_bool_iff in H. congruence.
Qed.

(** Below a positive peak, a non-negative value is a bounded drawdown. *)
Lemma drawdown_bounded (c m : Q) :
  0 <= c -> c <= m -> 0 < m ->
  bounded_drawdown (xdiv (Fin (c - m)) (Fin m)).
Proof.
  intros Hc Hcm Hm. unfold xdiv, is_zero.
  destruct (Qeq_bool m 0) eqn:E.
  - apply Qeq_bool_iff in E. lra.
  - exists ((c - m) / m). split; [reflexivity|]. split.
    + apply Qle_shift_div_l; [exact Hm|lra].
    + apply Qle_shift_div_r; [exact Hm|lra].
Qed.

(** Growth factors that are not negative keep the curve non-negative and
    under its running maximum, which stays positive. *)
Lemma running_max_invariant (l : list Q) (a m : Q) :
  0 <= a -> a <= m -> 0 < m ->
  Forall (fun x => 0 <= x) l ->
  Forall below_peak
         (combine (np_cumprod_acc a l) (cummax_acc m (np_cumprod_acc a l))).
Proof.
  intros Ha Ham Hm Hl. revert a m Ha Ham Hm.
  induction Hl as [|x l Hx Hl IH]; intros a m Ha Ham Hm; [constructor|].
  cbn [np_cumprod_acc cummax_acc combine].
  assert (Hy : 0 <= a * x) by (apply Qmult_le_0_compat; assumption).
  pose proof (Qmax_ge_l m (a * x)) as Hl1.
  pose proof (Qmax_ge_r m (a * x)) as Hr1.
  constructor.
  - unfold below_peak. cbn [fst snd]. repeat split; [exact Hy|exact Hr1|lra].
  - apply IH; [exact Hy|exact Hr1|lra].
Qed.

Lemma xmin2_bounded (a b : xfloat) :
  bounded_drawdown a -> bounded_drawdown b -> bounded_drawdown (xmin2 a b).
Proof.
  intros [x [-> Hx]] [y [-> Hy]]. cbn.
  destruct (Qle_bool x y); [exists x|exists y]; split; auto.
Qed.

Lemma fold_xmin2_bounded (l : list xfloat) (acc : xfloat) :
  bounded_drawdown acc -> Forall bounded_drawdown l ->
  bounded_drawdown (fold_left xmin2 l acc).
Proof.
  intros Hacc Hl. revert acc Hacc.
  induction Hl as [|x l Hx Hl IH]; intros acc Hacc; [exact Hacc|].
  cbn. apply IH. apply xmin2_bounded; assumption.
Qed.

Lemma xmin_bounded (l : list xfloat) :
  l <> [] -> Forall bounded_drawdown l -> bounded_drawdown (xmin l).
Proof.
  intros Hne Hl. destruct l as [|x l]; [contradiction|].
  inversion Hl as [|? ? Hx Hl']; subst.
  unfold xmin. cbn [fold_left].
  apply fold_xmin2_bounded; [|exact Hl'].
  destruct Hx as [v [-> Hv]]. exists v. split; [reflexivity|exact Hv].
Qed.

(** C7, as stated, fails.  A gain of one half followed by a return of -3 (a
    leveraged loss) gives a drawdown of -3; a first return of -1 gives
    [0 / 0], and the minimum of that alone is [NaN], no number at all. *)
Lemma max_drawdown_out_of_bounds :
  RiskMetrics.compute_max_drawdown
    (RiskMetrics.mk [(1%Z, 1 # 2); (2%Z, -3 # 1)] None (2 # 100))
    = Ok (Fin (-36 # 12))
  /\ ~ (-1 <= -36 # 12)
  /\ RiskMetrics.compute_max_drawdown
       (RiskMetrics.mk [(1%Z, -1 # 1)] None (2 # 100))
     = Ok NaN.
Proof.
  split; [reflexivity|]. split; [|reflexivity].
  intro H. apply Qle_bool_iff in H. discriminate H.
Qed.

(** C7, amended: on a non-empty series whose first return is above -1 and
    whose other returns are at least -1, [compute_max_drawdown] returns a
    number between -1 and 0. *)
Theorem max_drawdown_bounds (self : RiskMetrics.t) (d0 : date) (r0 : Q)
    (rest : Series Q) :
  RiskMetrics.portfolio_returns self = (d0, r0) :: rest ->
  -1 < r0 ->
  Forall (fun r => -1 <= r) (values rest) ->
  exists v,
    RiskMetrics.compute_max_drawdown self = Ok (Fin v) /\ -1 <= v /\ v <= 0.
Proof.
  intros Hs H0 Hrest.
  unfold RiskMetrics.compute_max_drawdown. rewrite Hs.
  cbn [values map snd np_cumprod cummax combine].
  set (c0 := Qplus 1 r0).
  set (gs := map (Qplus 1) (map snd rest)).
  assert (Hc0 : 0 < c0) by (unfold c0; lra).
  assert (Hgs : Forall (fun x => 0 <= x) gs).
  { unfold gs, values in *. clear -Hrest.
    induction Hrest as [|x l Hx Hl IH]; cbn; constructor; [lra|exact IH]. }
  assert (Hb : bounded_drawdown
                 (xmin (xdiv (Fin (c0 - c0)) (Fin c0)
                        :: map (fun cm => xdiv (Fin (fst cm - snd cm))
                                               (Fin (snd cm)))
                             (combine (np_cumprod_acc c0 gs)
                                      (cummax_acc c0 (np_cumprod_acc c0 gs)))))).
  { apply xmin_bounded; [discriminate|]. constructor.
    - apply drawdown_bounded; lra.
    - apply Forall_map.
      eapply Forall_impl;
        [|apply (running_max_invariant gs c0 c0); [lra|lra|exact Hc0|exact Hgs]].
      intros [c m] [A [B C]]. cbn [fst snd] in *.
      apply drawdown_bounded; assumption. }
  destruct Hb as [v [Ev Hv]].
  exists v. split; [|exact Hv].
  cbn [map fst snd]. f_equal. exact Ev.
Qed.

(** A gain of 10%, a total loss, then a gain on nothing. *)
Lemma max_drawdown_bounds_witness :
  exists v,
    RiskMetrics.compute_max_drawdown
      (RiskMetrics.mk [(1%Z, 1 # 10); (2%Z, -1 # 1); (3%Z, 1 # 2)] None
                      (2 # 100))
    = Ok (Fin v) /\ -1 <= v /\ v <= 0.
Proof.
  apply (max_drawdown_bounds
           (RiskMetrics.mk [(1%Z, 1 # 10); (2%Z, -1 # 1); (3%Z, 1 # 2)] None
                           (2 # 100))
           1%Z (1 # 10) [(2%Z, -1 # 1); (3%Z, 1 # 2)]).
  - reflexivity.
  - reflexivity.
  - cbn. repeat constructor; discriminate.
Defined.

(** ** Sharpe ratio *)

Lemma xdiv_nan_r (a : xfloat) : xdiv a NaN = NaN.
Proof. destruct a; reflexivity. Qed.

Lemma xdiv_by_zero (a : xfloat) (z : Q) :
  z == 0 -> is_finite (xdiv a (Fin z)) = false.
Proof.
  intro Hz. assert (E : is_zero z = true) by (apply Qeq_bool_iff; exact Hz).
  destruct a as [x| | |]; cbn; rewrite ?E.
  - destruct (is_zero x); [reflexivity|]. destruct (is_neg x); reflexivity.
  - destruct (is_neg z); reflexivity.
  - destruct (is_neg z); reflexivity.
  - reflexivity.
Qed.

(** C3, as stated, fails: two identical returns have a standard deviation of
    zero (whatever the square root, provided it maps 0 to 0, as [sqrt_down]
    does), and the Sharpe ratio is returned, as [+inf]. *)
Lemma sharpe_zero_std_returns_inf :
  xeq (RiskMetrics.pd_std sqrt_down [1 # 100; 1 # 100]) (Fin 0) /\
  RiskMetrics.compute_sharpe_ratio sqrt_down
    (RiskMetrics.mk [(1%Z, 1 # 100); (2%Z, 1 # 100)] None (2 # 100))
    = Ok PInf /\
  ~ fails_with
      (RiskMetrics.compute_sharpe_ratio sqrt_down
         (RiskMetrics.mk [(1%Z, 1 # 100); (2%Z, 1 # 100)] None (2 # 100)))
      InsufficientData.
Proof.
  split; [reflexivity|]. split; [reflexivity|].
  intros [e [H _]]. discriminate H.
Qed.

(** C3, amended: [compute_sharpe_ratio] raises nothing.  On a series whose
    standard deviation is zero, or which has fewer than two observations, it
    returns a float that is no number: [+inf], [-inf] or [NaN]. *)
Theorem sharpe_zero_std_not_finite (fsqrt : Q -> Q) (self : RiskMetrics.t) :
  xeq (RiskMetrics.pd_std fsqrt (values (RiskMetrics.portfolio_returns self)))
      (Fin 0)
  \/ (List.length (RiskMetrics.portfolio_returns self) <= 1)%nat ->
  exists v,
    RiskMetrics.compute_sharpe_ratio fsqrt self = Ok v /\ is_finite v = false.
Proof.
  intro H. unfold RiskMetrics.compute_sharpe_ratio.
  eexists. split; [reflexivity|].
  destruct H as [H|H].
  - destruct (RiskMetrics.pd_std fsqrt
                (values (RiskMetrics.portfolio_returns self))) as [z| | |];
      cbn in H; try contradiction.
    apply xdiv_by_zero. exact H.
  - unfold RiskMetrics.pd_std, pd_var, values. rewrite length_map.
    apply Nat.leb_le in H. rewrite H. cbn [RiskMetrics.xsqrt].
    rewrite xdiv_nan_r. reflexivity.
Qed.

(** Two identical returns, with [sqrt_down] as square root. *)
Lemma sharpe_zero_std_not_finite_witness :
  exists v,
    RiskMetrics.compute_sharpe_ratio sqrt_down
      (RiskMetrics.mk [(1%Z, 1 # 100); (2%Z, 1 # 100)] None (2 # 100)) = Ok v
    /\ is_finite v = false.
Proof.
  apply (sharpe_zero_std_not_finite sqrt_down
           (RiskMetrics.mk [(1%Z, 1 # 100); (2%Z, 1 # 100)] None (2 # 100))).
  left. reflexivity.
Defined.

(** ** Beta *)

Lemma count_cons {A} (x : A) (l : list A) : count (x :: l) == count l + 1.
Proof.
  unfold count. cbn [List.length]. rewrite Nat2Z.inj_succ.
  unfold Z.succ. rewrite inject_Z_plus. reflexivity.
Qed.

Lemma count_nonneg {A} (l : list A) : 0 <= count l.
Proof.
  unfold count. change 0 with (inject_Z 0). rewrite <- Zle_Qle. lia.
Qed.

Lemma is_zero_false (q : Q) : ~ q == 0 -> is_zero q = false.
Proof.
  intro H. unfold is_zero. destruct (Qeq_bool q 0) eqn:E; [|reflexivity].
  apply Qeq_bool_iff in E. contradiction.
Qed.

Lemma is_zero_true (q : Q) : q == 0 -> is_zero q = true.
Proof. intro H. apply Qeq_bool_iff. exact H. Qed.

Lemma lookup_date_In {A} (s : Series A) (d : date) (x : A) :
  NoDup (index s) -> In (d, x) s -> lookup_date d s = Some x.
Proof.
  induction s as [|[d' v] s IH]; intros ND Hin; [contradiction|].
  cbn in ND. inversion ND as [|? ? Hn ND']; subst. cbn [lookup_date].
  destruct Hin as [Hin|Hin].
  - inversion Hin; subst. rewrite Z.eqb_refl. reflexivity.
  - destruct (Z.eqb d d') eqn:E.
    + apply Z.eqb_eq in E. subst d'. exfalso. apply Hn.
      change d with (fst (d, x)). apply in_map. exact Hin.
    + apply IH; assumption.
Qed.

(** Aligning a series with a series that holds all its entries pairs each
    value with itself. *)
Lemma align_sub (p s : Series Q) :
  NoDup (index s) -> incl p s -> align p s = self_pairs (values p).
Proof.
  intros ND. induction p as [|[d x] p IH]; intro Hincl; [reflexivity|].
  cbn [align]. rewrite (lookup_date_In s d x ND) by (apply Hincl; left; reflexivity).
  cbn. f_equal. apply IH. intros y Hy. apply Hincl. right. exact Hy.
Qed.

Lemma align_self (s : Series Q) :
  NoDup (index s) -> align s s = self_pairs (values s).
Proof. intro ND. apply align_sub; [exact ND|apply incl_refl]. Qed.

Lemma snd_self_pairs (l : list Q) : map snd (self_pairs l) = l.
Proof.
  unfold self_pairs. rewrite map_map. cbn. apply map_id.
Qed.

Lemma length_self_pairs (l : list Q) :
  List.length (self_pairs l) = List.length l.
Proof. apply length_map. Qed.

Lemma np_cov_nonempty (ps : list (Q * Q)) :
  ps <> [] ->
  np_cov ps = xmul (Fin (co_moment ps)) (xdiv (Fin 1) (Fin (count ps - 1))).
Proof. destruct ps; [contradiction|reflexivity]. Qed.

(** The beta of a series against itself, as the code computes it: the sample
    covariance over the population variance, [N / (N - 1)]. *)
Lemma beta_self_value (rf : Q) (s : Series Q) :
  NoDup (index s) ->
  (2 <= List.length s)%nat ->
  ~ sq_dev (values s) == 0 ->
  exists v,
    RiskMetrics.compute_beta (RiskMetrics.mk s (Some s) rf) = Ok (Fin v)
    /\ v == count s / (count s - 1).
Proof.
  intros ND Hn Hsd. unfold RiskMetrics.compute_beta.
  cbn [RiskMetrics.benchmark_returns RiskMetrics.portfolio_returns].
  rewrite (align_self s ND), snd_self_pairs.
  set (l := values s) in *.
  assert (Hlen : List.length l = List.length s) by apply length_map.
  assert (Hc : count (self_pairs l) = count s).
  { unfold count. rewrite length_self_pairs, Hlen. reflexivity. }
  assert (Hc' : count l = count s) by (unfold count; rewrite Hlen; reflexivity).
  assert (Hge : 2 <= count s).
  { unfold count. change 2 with (inject_Z 2). rewrite <- Zle_Qle. lia. }
  rewrite np_cov_nonempty.
  2:{ intro E. apply (f_equal (@List.length _)) in E.
      rewrite length_self_pairs in E. cbn in E. lia. }
  unfold np_var. fold (sq_dev l). rewrite Hc, Hc'.
  unfold xdiv at 2. rewrite (is_zero_false (count s - 1)) by lra.
  unfold xmul.
  unfold xdiv at 2. rewrite (is_zero_false (count s)) by lra.
  unfold xdiv.
  rewrite is_zero_false.
  - eexists. split; [reflexivity|]. field. repeat split; lra.
  - intro H. apply Hsd.
    assert (E : sq_dev l == sq_dev l / count s * count s) by (field; lra).
    rewrite E, H. ring.
Qed.

(** C1 at a failing input.  Portfolio returns 0 and 2 against benchmark
    returns 0 and 1: the population covariance is 1/2 and the population
    variance 1/4, a beta of 2; [compute_beta] returns 4, the sample
    covariance (divisor [N - 1 = 1]) over the population variance. *)
Theorem beta_sample_cov_over_population_var :
  exists v w,
    RiskMetrics.compute_beta
      (RiskMetrics.mk [(1%Z, 0); (2%Z, 2)] (Some [(1%Z, 0); (2%Z, 1)])
                      (2 # 100))
    = Ok (Fin v)
    /\ population_beta (align [(1%Z, 0); (2%Z, 2)] [(1%Z, 0); (2%Z, 1)])
       = Fin w
    /\ v == 4 /\ w == 2 /\ ~ v == w.
Proof.
  eexists. eexists. split; [reflexivity|]. split; [reflexivity|].
  split; [reflexivity|]. split; [reflexivity|]. discriminate.
Qed.

(** C2 at a failing input.  The returns 0, 1, 2 against themselves: the
    series is not degenerate and [compute_beta] returns 3/2, not 1. *)
Theorem beta_self_three_halves :
  exists v,
    RiskMetrics.compute_beta
      (RiskMetrics.mk [(1%Z, 0); (2%Z, 1); (3%Z, 2)]
                      (Some [(1%Z, 0); (2%Z, 1); (3%Z, 2)]) (2 # 100))
    = Ok (Fin v)
    /\ v == 3 # 2 /\ ~ v == 1.
Proof.
  eexists. split; [reflexivity|]. split; [reflexivity|]. discriminate.
Qed.

(** *** Sample over sample is population over population *)

Lemma is_zero_scaled (a a' k : Q) :
  0 < k -> a == a' * k -> is_zero a = is_zero a'.
Proof.
  intros Hk E. unfold is_zero.
  destruct (Qeq_bool a 0) eqn:Ea, (Qeq_bool a' 0) eqn:Ea'; try reflexivity.
  - apply Qeq_bool_iff in Ea. apply Qeq_bool_neq in Ea'.
    exfalso. rewrite E in Ea. apply Qmult_integral in Ea.
    destruct Ea as [H|H]; [contradiction|lra].
  - apply Qeq_bool_iff in Ea'. apply Qeq_bool_neq in Ea.
    exfalso. apply Ea. rewrite E, Ea'. ring.
Qed.

Lemma is_neg_scaled (a a' k : Q) :
  0 < k -> a == a' * k -> is_neg a = is_neg a'.
Proof.
  intros Hk E. unfold is_neg. f_equal.
  destruct (Qle_bool 0 a) eqn:Ea, (Qle_bool 0 a') eqn:Ea'; try reflexivity.
  - apply Qle_bool_iff in Ea. exfalso.
    assert (H : ~ 0 <= a') by (rewrite <- Qle_bool_iff; congruence).
    apply H. rewrite E in Ea.
    apply (Qmult_le_r 0 a' k Hk). lra.
  - apply Qle_bool_iff in Ea'. exfalso.
    assert (H : ~ 0 <= a) by (rewrite <- Qle_bool_iff; congruence).
    apply H. rewrite E. apply Qmult_le_0_compat; lra.
Qed.

(** Scaling numerator and denominator by one positive factor leaves the
    float quotient as it is. *)
Lemma xdiv_scaled (a b a' b' k : Q) :
  0 < k -> a == a' * k -> b == b' * k ->
  xeq (xdiv (Fin a) (Fin b)) (xdiv (Fin a') (Fin b')).
Proof.
  intros Hk Ea Eb. unfold xdiv.
  rewrite (is_zero_scaled b b' k Hk Eb), (is_zero_scaled a a' k Hk Ea),
          (is_neg_scaled a a' k Hk Ea).
  destruct (is_zero b') eqn:Zb.
  - destruct (is_zero a'); [exact I|]. destruct (is_neg a'); exact I.
  - cbn. unfold is_zero in Zb. apply Qeq_bool_neq in Zb.
    rewrite Ea, Eb. field. split; [exact Zb|lra].
Qed.

Lemma co_moment_single (x y : Q) : co_moment [(x, y)] == 0.
Proof.
  unfold co_moment, average, total, count. cbn. field.
Qed.

Lemma count_map {A B} (f : A -> B) (l : list A) : count (map f l) = count l.
Proof. unfold count. rewrite length_map. reflexivity. Qed.

Lemma xdiv_fin (a b : Q) : ~ b == 0 -> xdiv (Fin a) (Fin b) = Fin (a / b).
Proof. intro H. unfold xdiv. rewrite (is_zero_false b H). reflexivity. Qed.

Lemma xdiv_zero_zero (a b : Q) : a == 0 -> b == 0 -> xdiv (Fin a) (Fin b) = NaN.
Proof.
  intros Ha Hb. unfold xdiv.
  rewrite (is_zero_true b Hb), (is_zero_true a Ha). reflexivity.
Qed.

(** The estimators of [compute_marginal_var] ([cov()] and [var()], both with
    divisor [N - 1]) give the population beta, for every aligned table. *)
Lemma sample_ratio_is_population_beta (ps : list (Q * Q)) :
  xeq (xdiv (np_cov ps) (pd_var (map snd ps))) (population_beta ps).
Proof.
  unfold population_beta, population_cov, population_var.
  destruct ps as [|[x1 y1] [|p2 ps]].
  - exact I.
  - cbn [map snd]. unfold pd_var. cbn [List.length Nat.leb].
    rewrite xdiv_nan_r.
    assert (Hc : co_moment [(x1, y1)] == 0) by apply co_moment_single.
    assert (Hs : sq_dev [y1] == 0) by apply co_moment_single.
    assert (H1 : ~ count [(x1, y1)] == 0) by discriminate.
    assert (H2 : ~ count [y1] == 0) by discriminate.
    rewrite (xdiv_fin _ _ H1), (xdiv_fin _ _ H2).
    rewrite xdiv_zero_zero; [exact I| |].
    + rewrite Hc. field. exact H1.
    + rewrite Hs. field. exact H2.
  - set (l := (x1, y1) :: p2 :: ps).
    assert (Hn : 2 <= count l).
    { unfold l. rewrite !count_cons. pose proof (count_nonneg ps). lra. }
    rewrite np_cov_nonempty by discriminate.
    unfold pd_var. rewrite count_map.
    change (List.length (map snd l) <=? 1)%nat with false. cbv iota.
    rewrite (xdiv_fin 1 (count l - 1)) by lra.
    rewrite (xdiv_fin _ (count l)) by lra.
    rewrite (xdiv_fin _ (count l)) by lra.
    unfold xmul.
    apply (xdiv_scaled _ _ _ _ (count l / (count l - 1))).
    + apply Qlt_shift_div_l; lra.
    + field. split; lra.
    + field. split; lra.
Qed.

Lemma align_frame_complete (cols : list string) (rs : Series (Row Q))
    (p : Series Q) :
  Forall (fun ry => complete cols (fst ry) = true) (align_frame cols rs p).
Proof.
  induction rs as [|[d r] rs IH]; [constructor|].
  cbn [align_frame]. destruct (lookup_date d p); [|exact IH].
  destruct (complete cols r) eqn:E; [|exact IH].
  constructor; [exact E|exact IH].
Qed.

Lemma snd_column_pairs (cols : list string) (c : string)
    (al : list (Row Q * Q)) :
  In c cols ->
  Forall (fun ry => complete cols (fst ry) = true) al ->
  map snd (column_pairs c al) = map snd al.
Proof.
  intros Hc Hal. induction Hal as [|[r y] al Hr Hal IH]; [reflexivity|].
  cbn [fst] in Hr. rewrite complete_spec in Hr.
  destruct (Hr c Hc) as [v Hv].
  cbn [column_pairs]. rewrite Hv. cbn. f_equal. exact IH.
Qed.

Lemma cell_tabulate {B} (f : string -> B) (cols : list string) (c : string) :
  In c cols -> cell c (map (fun c' => (c', f c')) cols) = Some (f c).
Proof.
  induction cols as [|c' cols IH]; intro H; [contradiction|].
  cbn [map cell]. destruct (String.eqb c c') eqn:E.
  - apply String.eqb_eq in E. subst c'. reflexivity.
  - destruct H as [H|H]; [subst; rewrite String.eqb_refl in E; discriminate|].
    apply IH. exact H.
Qed.

(** The asset betas of [compute_marginal_var] are population betas: for each
    column of the table, the population covariance of the aligned column
    with the aligned portfolio series over the population variance of the
    latter. *)
Lemma asset_betas_population (self : RiskMetrics.t) (df : DataFrame Q)
    (c : string) :
  In c (columns df) ->
  exists b,
    cell c (RiskMetrics.asset_betas self df) = Some b /\
    xeq b (population_beta
             (column_pairs c
                (align_frame (columns df) (rows df)
                             (RiskMetrics.portfolio_returns self)))).
Proof.
  intro Hc. unfold RiskMetrics.asset_betas.
  rewrite (cell_tabulate _ (columns df) c Hc).
  eexists. split; [reflexivity|].
  rewrite <- (snd_column_pairs (columns df) c _ Hc
                (align_frame_complete _ _ _)).
  apply sample_ratio_is_population_beta.
Qed.

(** What [compute_beta] returns against the population beta: with at least
    two aligned observations and a benchmark that varies, the population
    beta times [N / (N - 1)]. *)
Lemma beta_inflated (ps : list (Q * Q)) :
  (2 <= List.length ps)%nat ->
  ~ sq_dev (map snd ps) == 0 ->
  exists v w,
    xdiv (np_cov ps) (np_var (map snd ps)) = Fin v /\
    population_beta ps = Fin w /\
    v == w * (count ps / (count ps - 1)).
Proof.
  intros Hlen Hsd.
  assert (Hn : 2 <= count ps).
  { unfold count. change 2 with (inject_Z 2). rewrite <- Zle_Qle. lia. }
  assert (Hv : ~ sq_dev (map snd ps) / count ps == 0).
  { intro H. apply Hsd.
    assert (E : sq_dev (map snd ps)
                == sq_dev (map snd ps) / count ps * count ps) by (field; lra).
    rewrite E, H. ring. }
  unfold population_beta, population_cov, population_var, np_var.
  rewrite np_cov_nonempty by (destruct ps; [cbn in Hlen; lia|discriminate]).
  rewrite count_map.
  rewrite (xdiv_fin 1 (count ps - 1)) by lra.
  rewrite !(xdiv_fin _ (count ps)) by lra.
  unfold xmul. rewrite !xdiv_fin by exact Hv.
  eexists. eexists. split; [reflexivity|]. split; [reflexivity|].
  field. repeat split; lra.
Qed.

(** * Further properties of the pipeline *)

Section Pipeline.
Import StockDataFetcher.

(** What an object returned by the constructor holds. *)
Lemma init_ok_fields (tks : list string) (sd ed : string)
    (ws : option (list Q)) (b : option string) (w w' : world) (self : t) :
  init tks sd ed ws b w = (w', Ok self) ->
  w' = w /\ tickers self = tks /\ data self = None
  /\ List.length (weights self) = List.length tks.
Proof.
  unfold init. destruct (truthy ws).
  - destruct (Nat.eqb _ _) eqn:E; cbn [negb]; intro H; [|discriminate].
    injection H as <- <-. cbn. apply Nat.eqb_eq in E. auto.
  - intro H. injection H as <- <-. cbn.
    rewrite length_equal_weights. auto.
Qed.

(** What [fetch_data] stores. *)
Lemma fetch_data_fields (pad : bool) (yf_download : provider) (self self' : t)
    (w w' : world) (d : DataFrame price) :
  fetch_data pad yf_download self w = (w', (self', d)) ->
  d = yf_download (tickers self) (start_date self) (end_date self)
  /\ data self' = Some d
  /\ tickers self' = tickers self
  /\ weights self' = weights self.
Proof.
  unfold fetch_data.
  destruct (truthy_string (benchmark_ticker self));
    intro H; injection H as <- <- <-; cbn; auto.
Qed.

Lemma filter_length_all {A} (f : A -> bool) (l : list A) :
  List.length (filter f l) = List.length l <-> forallb f l = true.
Proof.
  induction l as [|x l IH]; cbn; [tauto|].
  pose proof (filter_length_le f l) as Hle.
  destruct (f x); cbn.
  - rewrite <- IH. split; [intro H; injection H; auto|intro H; f_equal; exact H].
  - split; [intro H; lia|discriminate].
Qed.

Lemma filter_nil_none {A} (f : A -> bool) (l : list A) :
  filter f l = [] <-> forall x, In x l -> f x = false.
Proof.
  induction l as [|x l IH]; cbn; [tauto|].
  destruct (f x) eqn:E.
  - split; [discriminate|]. intro H. specialize (H x (or_introl eq_refl)).
    congruence.
  - rewrite IH. split.
    + intros H y [<-|Hy]; [exact E|apply H; exact Hy].
    + intros H y Hy. apply H. right. exact Hy.
Qed.

(** How [compute_portfolio_returns] ends, by the resolved tickers. *)
Lemma portfolio_returns_cases (pad : bool) (self : t) (df : DataFrame price) :
  data self = Some df ->
  match resolved (tickers self) df with
  | [] => compute_portfolio_returns pad self = Raise NoTickersFound
  | tk =>
      if Nat.eqb (List.length tk) (List.length (weights self)) then
        compute_portfolio_returns pad self
        = Ok (map (fun dr => (fst dr, dot_row tk (weights self) (snd dr)))
                  (rows (dropna (pct_change pad df))),
              benchmark_returns self)
      else
        compute_portfolio_returns pad self
        = Raise (StocksWeightsMismatch (List.length tk)
                                       (List.length (weights self)))
  end.
Proof.
  intro Hd. unfold compute_portfolio_returns, compute_daily_returns, resolved.
  rewrite Hd. cbn [bind dropna pct_change columns].
  destruct (filter _ (tickers self)) as [|t0 tk]; [reflexivity|].
  destruct (Nat.eqb _ _); reflexivity.
Qed.

End Pipeline.

(** X1: an object returned by the constructor has one weight per ticker (the
    weights given when there are some, equal weights otherwise), holds no
    data yet, and was built without a call to the collaborator. *)
Theorem init_object_invariant (tks : list string) (sd ed : string)
    (ws : option (list Q)) (b : option string) (w w' : world)
    (self : StockDataFetcher.t) :
  StockDataFetcher.init tks sd ed ws b w = (w', Ok self) ->
  w' = w
  /\ StockDataFetcher.tickers self = tks
  /\ List.length (StockDataFetcher.weights self) = List.length tks
  /\ StockDataFetcher.weights self
     = (if StockDataFetcher.truthy ws
        then match ws with Some l => l | None => [] end
        else StockDataFetcher.equal_weights (List.length tks))
  /\ StockDataFetcher.data self = None
  /\ StockDataFetcher.benchmark_returns self = None.
Proof.
  intro H. destruct (init_ok_fields _ _ _ _ _ _ _ _ H) as [Hw [Ht [Hd Hl]]].
  repeat (split; [assumption|]).
  revert H. unfold StockDataFetcher.init.
  destruct (StockDataFetcher.truthy ws).
  - destruct (negb _); intro H; [discriminate|].
    injection H as _ <-. repeat split.
  - intro H. injection H as _ <-. repeat split.
Qed.

(** Two tickers with their two weights. *)
Lemma init_object_invariant_witness :
  let self :=
    StockDataFetcher.mk ["AAA"; "BBB"]%string "2023-01-01" "2024-01-01" None
                        None None None [1 # 4; 3 # 4] in
  (@nil (list string * string * string)) = []
  /\ StockDataFetcher.tickers self = ["AAA"; "BBB"]%string
  /\ List.length (StockDataFetcher.weights self) = 2%nat
  /\ StockDataFetcher.weights self = [1 # 4; 3 # 4]
  /\ StockDataFetcher.data self = None
  /\ StockDataFetcher.benchmark_returns self = None.
Proof.
  exact (init_object_invariant ["AAA"; "BBB"]%string "2023-01-01" "2024-01-01"
           (Some [1 # 4; 3 # 4]) None [] [] _ eq_refl).
Defined.

(** X2: between construction and [fetch_data] nothing can be computed: the
    daily, portfolio and cumulative returns all raise the "run fetch_data()
    first" error (kind [NotFetched]). *)
Theorem computations_before_fetch (pad : bool) (tks : list string)
    (sd ed : string) (ws : option (list Q)) (b : option string)
    (w w' : world) (self : StockDataFetcher.t) :
  StockDataFetcher.init tks sd ed ws b w = (w', Ok self) ->
  StockDataFetcher.compute_daily_returns pad self = Raise StockDataEmpty
  /\ StockDataFetcher.compute_portfolio_returns pad self = Raise StockDataEmpty
  /\ StockDataFetcher.compute_cumulative_returns pad self
     = Raise StockDataEmpty
  /\ fails_with (StockDataFetcher.compute_cumulative_returns pad self)
                NotFetched.
Proof.
  intro H. destruct (init_ok_fields _ _ _ _ _ _ _ _ H) as [_ [_ [Hd _]]].
  assert (E1 : StockDataFetcher.compute_daily_returns pad self
               = Raise StockDataEmpty).
  { unfold StockDataFetcher.compute_daily_returns. rewrite Hd. reflexivity. }
  assert (E2 : StockDataFetcher.compute_portfolio_returns pad self
               = Raise StockDataEmpty).
  { unfold StockDataFetcher.compute_portfolio_returns. rewrite E1. reflexivity. }
  assert (E3 : StockDataFetcher.compute_cumulative_returns pad self
               = Raise StockDataEmpty).
  { unfold StockDataFetcher.compute_cumulative_returns. rewrite E2. reflexivity. }
  repeat split; try assumption.
  rewrite E3. exists StockDataEmpty. split; reflexivity.
Qed.

(** A pipeline of one ticker, just constructed. *)
Lemma computations_before_fetch_witness :
  let self :=
    StockDataFetcher.mk ["AAA"]%string "2023-01-01" "2024-01-01" None
                        None None None [1 / inject_Z (Z.of_nat 1)] in
  StockDataFetcher.compute_daily_returns false self = Raise StockDataEmpty
  /\ StockDataFetcher.compute_portfolio_returns false self
     = Raise StockDataEmpty
  /\ StockDataFetcher.compute_cumulative_returns false self
     = Raise StockDataEmpty
  /\ fails_with (StockDataFetcher.compute_cumulative_returns false self)
                NotFetched.
Proof.
  exact (computations_before_fetch false ["AAA"]%string "2023-01-01"
           "2024-01-01" None None [] [] _ eq_refl).
Defined.

(** X3: [fetch_data] makes one call to the collaborator for the tickers and,
    when a benchmark is configured, a second one for it; it returns and
    stores the table of the first call, keeps tickers and weights, and from
    then on the daily returns are computed from that table. *)
Theorem fetch_then_daily_returns (pad : bool) (yf_download : provider)
    (self self' : StockDataFetcher.t) (w w' : world) (d : DataFrame price) :
  StockDataFetcher.fetch_data pad yf_download self w = (w', (self', d)) ->
  let sd := StockDataFetcher.start_date self in
  let ed := StockDataFetcher.end_date self in
  d = yf_download (StockDataFetcher.tickers self) sd ed
  /\ StockDataFetcher.compute_daily_returns pad self'
     = Ok (dropna (StockDataFetcher.pct_change pad d))
  /\ StockDataFetcher.tickers self' = StockDataFetcher.tickers self
  /\ StockDataFetcher.weights self' = StockDataFetcher.weights self
  /\ match StockDataFetcher.truthy_string
             (StockDataFetcher.benchmark_ticker self) with
     | Some b =>
         w' = ([b], sd, ed) :: (StockDataFetcher.tickers self, sd, ed) :: w
         /\ StockDataFetcher.benchmark_returns self'
            = Some (dropna (StockDataFetcher.pct_change pad
                              (yf_download [b] sd ed)))
     | None =>
         w' = (StockDataFetcher.tickers self, sd, ed) :: w
         /\ StockDataFetcher.benchmark_returns self'
            = StockDataFetcher.benchmark_returns self
     end.
Proof.
  intros H sd ed.
  destruct (fetch_data_fields _ _ _ _ _ _ _ H) as [Hd [Hs [Ht Hw]]].
  split; [exact Hd|]. split.
  { unfold StockDataFetcher.compute_daily_returns. rewrite Hs. reflexivity. }
  split; [exact Ht|]. split; [exact Hw|].
  revert H. unfold StockDataFetcher.fetch_data. fold sd. fold ed.
  destruct (StockDataFetcher.truthy_string
              (StockDataFetcher.benchmark_ticker self));
    intro H; injection H as <- <- _; split; reflexivity.
Qed.

(** One fetch with no benchmark, answered with [two_assets]. *)
Lemma fetch_then_daily_returns_witness :
  let self' := fetched ["AAA"; "BBB"]%string
                       (StockDataFetcher.equal_weights 2) two_assets in
  two_assets = sample_provider ["AAA"; "BBB"]%string "2023-01-01"%string
                               "2024-01-01"%string
  /\ StockDataFetcher.compute_daily_returns false self'
     = Ok (dropna (StockDataFetcher.pct_change false two_assets))
  /\ StockDataFetcher.tickers self' = ["AAA"; "BBB"]%string
  /\ StockDataFetcher.weights self' = StockDataFetcher.equal_weights 2
  /\ ([(["AAA"; "BBB"]%string, "2023-01-01"%string, "2024-01-01"%string)]
      = [(["AAA"; "BBB"]%string, "2023-01-01"%string, "2024-01-01"%string)]
      /\ StockDataFetcher.benchmark_returns self' = None).
Proof.
  exact (fetch_then_daily_returns false sample_provider fresh_pipeline _ [] _ _
           eq_refl).
Defined.

(** X4: after construction and a fetch, the portfolio returns are computed
    exactly when there is at least one ticker and every configured ticker is
    a column of the downloaded table.  When none is, the "none found" error
    is raised; when some are and some are not, the weight-count mismatch is
    raised: a partly resolved ticker list is never weighted. *)
Theorem partial_resolution_rejected (pad : bool) (yf_download : provider)
    (tks : list string) (sd ed : string) (ws : option (list Q))
    (b : option string) (w w1 w2 : world)
    (self self' : StockDataFetcher.t) (df : DataFrame price) :
  StockDataFetcher.init tks sd ed ws b w = (w1, Ok self) ->
  StockDataFetcher.fetch_data pad yf_download self w1 = (w2, (self', df)) ->
  ((exists rb, StockDataFetcher.compute_portfolio_returns pad self' = Ok rb)
   <-> tks <> [] /\ forall t, In t tks -> In t (columns df))
  /\ ((forall t, In t tks -> ~ In t (columns df)) ->
      StockDataFetcher.compute_portfolio_returns pad self'
      = Raise NoTickersFound)
  /\ ((exists t, In t tks /\ In t (columns df)) ->
      (exists t, In t tks /\ ~ In t (columns df)) ->
      fails_with (StockDataFetcher.compute_portfolio_returns pad self')
                 WeightCountMismatch).
Proof.
  intros Hi Hf.
  destruct (init_ok_fields _ _ _ _ _ _ _ _ Hi) as [_ [Ht [_ Hl]]].
  destruct (fetch_data_fields _ _ _ _ _ _ _ Hf) as [_ [Hd [Ht' Hw']]].
  pose proof (portfolio_returns_cases pad self' df Hd) as C.
  rewrite Ht', Ht, Hw', Hl in C. unfold resolved in C.
  set (f := fun ticker => StockDataFetcher.mem_string ticker (columns df)) in C.
  assert (Hall : forallb f tks = true <-> forall t, In t tks -> In t (columns df)).
  { rewrite forallb_forall. unfold f.
    split; intros H t Hin; apply mem_string_In; apply H; exact Hin. }
  assert (Hnone : filter f tks = [] <-> forall t, In t tks -> ~ In t (columns df)).
  { rewrite filter_nil_none. unfold f. split; intros H t Hin.
    - intro Hc. apply mem_string_In in Hc. rewrite (H t Hin) in Hc. discriminate.
    - destruct (StockDataFetcher.mem_string t (columns df)) eqn:E; [|reflexivity].
      exfalso. apply (H t Hin). apply mem_string_In. exact E. }
  pose proof (filter_length_all f tks) as Hlen.
  destruct (filter f tks) as [|t0 tk] eqn:Ef.
  - assert (N : forall t, In t tks -> ~ In t (columns df))
      by (apply (proj1 Hnone); reflexivity).
    rewrite C. split; [split|split].
    + intros [rb Hrb]. discriminate.
    + intros [Hne Hin]. destruct tks as [|t tks']; [contradiction|].
      exfalso. apply (N t (or_introl eq_refl)). apply Hin. left. reflexivity.
    + intros _. reflexivity.
    + intros [t [Hin Hc]]. exfalso. exact (N t Hin Hc).
  - destruct (Nat.eqb (List.length (t0 :: tk)) (List.length tks)) eqn:E.
    + apply Nat.eqb_eq in E.
      pose proof (proj1 Hall (proj1 Hlen E)) as E'. clear E. rename E' into E.
      split; [split|split].
      * intros _. split; [|exact E]. intro Hnil. rewrite Hnil in Ef. discriminate Ef.
      * intros _. eexists. exact C.
      * intro N. pose proof (proj2 Hnone N) as N'. discriminate N'.
      * intros _ [t [Hin Hc]]. exfalso. apply Hc. apply E. exact Hin.
    + rewrite C. split; [split|split].
      * intros [rb Hrb]. discriminate.
      * intros [_ Hin]. pose proof (proj2 Hlen (proj2 Hall Hin)) as L.
        apply Nat.eqb_neq in E. contradiction.
      * intro N. pose proof (proj2 Hnone N) as N'. discriminate N'.
      * intros _ _. eexists. split; reflexivity.
Qed.

(** Both tickers are columns of the table fetched. *)
Lemma partial_resolution_rejected_witness :
  let self' := fetched ["AAA"; "BBB"]%string
                       (StockDataFetcher.equal_weights 2) two_assets in
  ((exists rb, StockDataFetcher.compute_portfolio_returns false self' = Ok rb)
   <-> ["AAA"; "BBB"]%string <> []
       /\ forall t, In t ["AAA"; "BBB"]%string -> In t (columns two_assets))
  /\ ((forall t, In t ["AAA"; "BBB"]%string -> ~ In t (columns two_assets)) ->
      StockDataFetcher.compute_portfolio_returns false self'
      = Raise NoTickersFound)
  /\ ((exists t, In t ["AAA"; "BBB"]%string /\ In t (columns two_assets)) ->
      (exists t, In t ["AAA"; "BBB"]%string /\ ~ In t (columns two_assets)) ->
      fails_with (StockDataFetcher.compute_portfolio_returns false self')
                 WeightCountMismatch).
Proof.
  exact (partial_resolution_rejected false sample_provider
           ["AAA"; "BBB"]%string "2023-01-01" "2024-01-01" None None
           [] [] _ fresh_pipeline _ two_assets eq_refl eq_refl).
Defined.

(** ** Daily returns of a table with no missing price *)

Section FullTables.
Import StockDataFetcher.

Lemma build_row_ext {B} (cols : list string) (f g : string -> option B) :
  (forall c, In c cols -> f c = g c) -> build_row cols f = build_row cols g.
Proof.
  induction cols as [|c cols IH]; intro H; [reflexivity|].
  cbn [build_row]. rewrite (H c (or_introl eq_refl)).
  rewrite IH by (intros; apply H; right; assumption). reflexivity.
Qed.

(** A row of returns depends on the cells of its two price rows only. *)
Lemma pct_row_ext (cols : list string) (p p' r r' : Row price) :
  (forall c, In c cols -> cell c p = cell c p') ->
  (forall c, In c cols -> cell c r = cell c r') ->
  pct_row cols p r = pct_row cols p' r'.
Proof.
  intros Hp Hr. apply build_row_ext. intros c Hc.
  rewrite (Hp c Hc), (Hr c Hc). reflexivity.
Qed.

(** Padding leaves a row with no missing cell as it is, cell by cell. *)
Lemma pad_complete_cells {A} (cols : list string) (last r : Row A) (c : string) :
  complete cols r = true -> In c cols ->
  cell c (build_row cols (fun c' =>
            match cell c' r with Some v => Some v | None => cell c' last end))
  = cell c r.
Proof.
  intros Hr Hc. rewrite cell_build_row.
  apply mem_string_In in Hc. rewrite Hc.
  apply mem_string_In in Hc. rewrite complete_spec in Hr.
  destruct (Hr c Hc) as [v Hv]. rewrite Hv. reflexivity.
Qed.

Lemma pct_rows_pad (cols : list string) (last prev prev' : Row price)
    (rs : Series (Row price)) :
  Forall (fun dr => complete cols (snd dr) = true) rs ->
  (forall c, In c cols -> cell c prev = cell c prev') ->
  with_previous (pct_row cols) prev (pad_rows cols last rs)
  = with_previous (pct_row cols) prev' rs.
Proof.
  intro H. revert last prev prev'.
  induction H as [|[d r] rs Hr Hrs IH]; intros last prev prev' Hp; [reflexivity|].
  cbn [pad_rows with_previous]. cbn [snd] in Hr. f_equal.
  - f_equal. apply pct_row_ext; [exact Hp|].
    intros c Hc. apply pad_complete_cells; assumption.
  - apply IH. intros c Hc. apply pad_complete_cells; assumption.
Qed.

Lemma pct_row_complete (cols : list string) (p r : Row price) :
  complete cols p = true -> complete cols r = true ->
  complete cols (pct_row cols p r) = true.
Proof.
  intros Hp Hr. apply complete_spec. intros c Hc.
  pose proof (proj1 (complete_spec cols p) Hp) as Hp'.
  pose proof (proj1 (complete_spec cols r) Hr) as Hr'.
  unfold pct_row. rewrite cell_build_row.
  apply mem_string_In in Hc. rewrite Hc. apply mem_string_In in Hc.
  destruct (Hp' c Hc) as [v Hv]. destruct (Hr' c Hc) as [v' Hv'].
  rewrite Hv, Hv'. eexists. reflexivity.
Qed.

Lemma pct_rows_complete (cols : list string) (prev : Row price)
    (rs : Series (Row price)) :
  Forall (fun dr => complete cols (snd dr) = true) rs ->
  complete cols prev = true ->
  Forall (fun dr => complete cols (snd dr) = true)
         (with_previous (pct_row cols) prev rs).
Proof.
  intro H. revert prev.
  induction H as [|[d r] rs Hr Hrs IH]; intros prev Hp; [constructor|].
  cbn [with_previous]. cbn [snd] in Hr. constructor.
  - cbn [snd]. apply pct_row_complete; assumption.
  - apply IH. exact Hr.
Qed.

Lemma filter_all {A} (f : A -> bool) (l : list A) :
  Forall (fun x => f x = true) l -> filter f l = l.
Proof.
  intro H. induction H as [|x l Hx Hl IH]; [reflexivity|].
  cbn. rewrite Hx, IH. reflexivity.
Qed.

(** The first row of [pct_change] has no cell at all. *)
Lemma pct_row_first (cols : list string) (r : Row price) :
  pct_row cols [] r = [].
Proof.
  unfold pct_row. induction cols as [|c cols IH]; [reflexivity|].
  cbn [build_row cell pct_cell]. exact IH.
Qed.

(** The daily returns of a table with no missing price and at least one
    column, whatever the fill method. *)
Lemma daily_returns_full (pad : bool) (df : DataFrame price) :
  columns df <> [] -> full_table df ->
  rows (dropna (pct_change pad df))
  = match rows df with
    | [] => []
    | (d0, r0) :: rest => with_previous (pct_row (columns df)) r0 rest
    end.
Proof.
  intros Hc Hfull. unfold full_table in Hfull.
  assert (E : with_previous (pct_row (columns df)) [] (fill pad df)
              = with_previous (pct_row (columns df)) [] (rows df)).
  { destruct pad; [|reflexivity]. unfold fill.
    apply pct_rows_pad; [exact Hfull|reflexivity]. }
  cbn [dropna pct_change rows columns]. rewrite E.
  destruct (rows df) as [|[d0 r0] rest]; [reflexivity|].
  inversion Hfull as [|? ? H0 Hrest]; subst. cbn [snd] in H0.
  assert (Hempty : complete (columns df) (@nil (string * Q)) = false)
    by (destruct (columns df); [contradiction|reflexivity]).
  cbn [with_previous filter snd]. rewrite pct_row_first, Hempty.
  apply (filter_all (fun dr => complete (columns df) (snd dr))).
  apply pct_rows_complete; assumption.
Qed.

Lemma with_previous_nth {A B} (f : Row A -> Row A -> Row B)
    (rest : Series (Row A)) (d0 : date) (r0 : Row A) (i : nat)
    (dp d1 : date) (rp r1 : Row A) :
  nth_error ((d0, r0) :: rest) i = Some (dp, rp) ->
  nth_error rest i = Some (d1, r1) ->
  nth_error (with_previous f r0 rest) i = Some (d1, f rp r1).
Proof.
  revert d0 r0 i. induction rest as [|[d r] rest IH]; intros d0 r0 i Hp H1.
  - destruct i; discriminate.
  - destruct i as [|i].
    + cbn in Hp, H1. injection Hp as _ <-. injection H1 as <- <-. reflexivity.
    + cbn [nth_error] in Hp, H1. cbn [with_previous nth_error].
      apply (IH d r i); assumption.
Qed.

End FullTables.

(** X5: on a price table with at least one column and no missing price, the
    daily returns lose the first date and nothing else, with or without the
    library's filling: the table of returns has the dates of the price table
    but the first, one row less, no missing cell, and its row [i] holds, for
    each asset, the price of row [i + 1] over the price of row [i], minus
    one. *)
Theorem daily_returns_of_full_table (pad : bool) (self : StockDataFetcher.t)
    (df : DataFrame price) :
  StockDataFetcher.data self = Some df ->
  columns df <> [] ->
  full_table df ->
  exists out,
    StockDataFetcher.compute_daily_returns pad self = Ok out
    /\ columns out = columns df
    /\ index (rows out) = tl (index (rows df))
    /\ shape0 out = (shape0 df - 1)%nat
    /\ full_table out
    /\ forall i d0 r0 d1 r1 c p0 p1,
         nth_error (rows df) i = Some (d0, r0) ->
         nth_error (rows df) (S i) = Some (d1, r1) ->
         In c (columns df) ->
         cell c r0 = Some p0 -> cell c r1 = Some p1 ->
         exists R, nth_error (rows out) i = Some (d1, R)
                   /\ cell c R = Some (price_value p1 / price_value p0 - 1).
Proof.
  intros Hd Hc Hfull.
  unfold StockDataFetcher.compute_daily_returns. rewrite Hd.
  eexists. split; [reflexivity|]. split; [reflexivity|].
  pose proof (daily_returns_full pad df Hc Hfull) as E.
  unfold full_table, shape0. cbn [columns dropna] in *.
  change (filter (fun dr => complete (columns df) (snd dr))
            (rows (StockDataFetcher.pct_change pad df)))
    with (rows (dropna (StockDataFetcher.pct_change pad df))).
  rewrite E. unfold full_table in Hfull.
  destruct (rows df) as [|[d r] rest] eqn:Er.
  - cbn. repeat split; try constructor. intros i; destruct i; discriminate.
  - inversion Hfull as [|? ? H0 Hrest]; subst. cbn [snd] in H0.
    split; [rewrite index_with_previous; reflexivity|]. split.
    { rewrite <- (length_map fst), <- (length_map fst ((d, r) :: rest)).
      fold (index (StockDataFetcher.with_previous
                     (StockDataFetcher.pct_row (columns df)) r rest)).
      rewrite index_with_previous. unfold index. cbn.
      rewrite !length_map. lia. }
    split; [apply pct_rows_complete; assumption|].
    intros i d0 r0 d1 r1 c p0 p1 Hi Hi1 Hin H0' H1'.
    exists (StockDataFetcher.pct_row (columns df) r0 r1). split.
    + apply (with_previous_nth _ rest d r i d0 d1 r0 r1); assumption.
    + unfold StockDataFetcher.pct_row. rewrite cell_build_row.
      apply mem_string_In in Hin. rewrite Hin, H0', H1'. reflexivity.
Qed.

Lemma two_assets_full : full_table two_assets.
Proof. unfold full_table. cbn. repeat constructor. Qed.

(** The table [two_assets], without filling. *)
Lemma daily_returns_of_full_table_witness :
  exists out,
    StockDataFetcher.compute_daily_returns false
      (fetched ["AAA"; "BBB"]%string [1 # 2; 1 # 2] two_assets) = Ok out
    /\ columns out = columns two_assets
    /\ index (rows out) = tl (index (rows two_assets))
    /\ shape0 out = (shape0 two_assets - 1)%nat
    /\ full_table out
    /\ forall i d0 r0 d1 r1 c p0 p1,
         nth_error (rows two_assets) i = Some (d0, r0) ->
         nth_error (rows two_assets) (S i) = Some (d1, r1) ->
         In c (columns two_assets) ->
         cell c r0 = Some p0 -> cell c r1 = Some p1 ->
         exists R, nth_error (rows out) i = Some (d1, R)
                   /\ cell c R = Some (price_value p1 / price_value p0 - 1).
Proof.
  apply (daily_returns_of_full_table false
           (fetched ["AAA"; "BBB"]%string [1 # 2; 1 # 2] two_assets)
           two_assets).
  - reflexivity.
  - discriminate.
  - exact two_assets_full.
Defined.

(** X6: on a price table with no missing price the library's fill method
    changes nothing: [pct_change] with padding and without give the same
    table, and so do the daily returns. *)
Theorem fill_method_irrelevant_on_full_table (self : StockDataFetcher.t)
    (df : DataFrame price) :
  StockDataFetcher.data self = Some df ->
  full_table df ->
  StockDataFetcher.pct_change true df = StockDataFetcher.pct_change false df
  /\ StockDataFetcher.compute_daily_returns true self
     = StockDataFetcher.compute_daily_returns false self.
Proof.
  intros Hd Hfull.
  assert (E : StockDataFetcher.pct_change true df
              = StockDataFetcher.pct_change false df).
  { unfold StockDataFetcher.pct_change, StockDataFetcher.fill. f_equal.
    apply pct_rows_pad; [exact Hfull|reflexivity]. }
  split; [exact E|].
  unfold StockDataFetcher.compute_daily_returns. rewrite Hd, E. reflexivity.
Qed.

Lemma fill_method_irrelevant_on_full_table_witness :
  StockDataFetcher.pct_change true two_assets
  = StockDataFetcher.pct_change false two_assets
  /\ StockDataFetcher.compute_daily_returns true
       (fetched ["AAA"; "BBB"]%string [1 # 2; 1 # 2] two_assets)
     = StockDataFetcher.compute_daily_returns false
         (fetched ["AAA"; "BBB"]%string [1 # 2; 1 # 2] two_assets).
Proof.
  apply (fill_method_irrelevant_on_full_table
           (fetched ["AAA"; "BBB"]%string [1 # 2; 1 # 2] two_assets)
           two_assets).
  - reflexivity.
  - exact two_assets_full.
Defined.

(** X7: with a fetched table of [N] rows and no missing price, every
    configured ticker among its columns and one weight per ticker, the whole
    pipeline runs: the cumulative returns are computed, one value for each
    date of the table but the first, none of them missing. *)
Theorem cumulative_returns_of_full_table (pad : bool)
    (self : StockDataFetcher.t) (df : DataFrame price) :
  StockDataFetcher.data self = Some df ->
  full_table df ->
  StockDataFetcher.tickers self <> [] ->
  (forall t, In t (StockDataFetcher.tickers self) -> In t (columns df)) ->
  List.length (StockDataFetcher.weights self)
  = List.length (StockDataFetcher.tickers self) ->
  exists c cv,
    StockDataFetcher.compute_cumulative_returns pad self = Ok c
    /\ index c = tl (index (rows df))
    /\ values c = map Some cv
    /\ List.length c = (shape0 df - 1)%nat.
Proof.
  intros Hd Hfull Hne Hin Hlen.
  assert (Hcols : columns df <> []).
  { destruct (StockDataFetcher.tickers self) as [|t l]; [contradiction|].
    intro E. specialize (Hin t (or_introl eq_refl)). rewrite E in Hin.
    contradiction. }
  pose proof (portfolio_returns_cases pad self df Hd) as C.
  unfold resolved in C.
  rewrite (filter_all _ (StockDataFetcher.tickers self)) in C.
  2:{ apply Forall_forall. intros t Ht. apply mem_string_In. apply Hin. exact Ht. }
  destruct (StockDataFetcher.tickers self) as [|t0 tk] eqn:Et; [contradiction|].
  rewrite Hlen, Nat.eqb_refl in C.
  destruct (portfolio_returns_defined pad self _ _ C) as [rv Hrv].
  destruct (add1_defined _ rv Hrv) as [I1 V1].
  destruct (cumprod_defined _ (map (Qplus 1) rv) V1) as [I2 V2].
  assert (Hidx : index (StockDataFetcher.cumprod
                          (StockDataFetcher.add1
                             (map (fun dr =>
                                     (fst dr,
                                      StockDataFetcher.dot_row (t0 :: tk)
                                        (StockDataFetcher.weights self)
                                        (snd dr)))
                                  (rows (dropna
                                           (StockDataFetcher.pct_change pad df))))))
                 = tl (index (rows df))).
  { rewrite I2, I1. unfold index. rewrite map_map. cbn [fst].
    rewrite (daily_returns_full pad df Hcols Hfull).
    destruct (rows df) as [|[d r] rest]; [reflexivity|].
    apply index_with_previous. }
  eexists. eexists.
  split.
  { unfold StockDataFetcher.compute_cumulative_returns. rewrite C. reflexivity. }
  cbn [fst]. split; [exact Hidx|]. split; [exact V2|].
  rewrite <- (length_map fst). fold (index (StockDataFetcher.cumprod
    (StockDataFetcher.add1
       (map (fun dr => (fst dr,
                        StockDataFetcher.dot_row (t0 :: tk)
                          (StockDataFetcher.weights self) (snd dr)))
            (rows (dropna (StockDataFetcher.pct_change pad df))))))).
  rewrite Hidx. unfold shape0, index.
  destruct (rows df); cbn; rewrite ?length_map; lia.
Qed.

(** The example of the specification: three dates, two cumulative values. *)
Lemma cumulative_returns_of_full_table_witness :
  exists c cv,
    StockDataFetcher.compute_cumulative_returns false
      (fetched ["AAA"; "BBB"]%string [1 # 2; 1 # 2] two_assets) = Ok c
    /\ index c = tl (index (rows two_assets))
    /\ values c = map Some cv
    /\ List.length c = (shape0 two_assets - 1)%nat.
Proof.
  apply (cumulative_returns_of_full_table false
           (fetched ["AAA"; "BBB"]%string [1 # 2; 1 # 2] two_assets)
           two_assets).
  - reflexivity.
  - exact two_assets_full.
  - discriminate.
  - cbn. intros t H. exact H.
  - reflexivity.
Defined.

(** * Further properties of the risk metrics *)

(** ** Value at risk *)

Lemma percentile_range_iff (c : Q) :
  Qle_bool 0 ((1 - c) * 100) && Qle_bool ((1 - c) * 100) 100 = true
  <-> 0 <= c /\ c <= 1.
Proof.
  rewrite andb_true_iff, !Qle_bool_iff. split; intros [A B]; split; lra.
Qed.


Lemma lerp_between (a b t lo hi : Q) :
  0 <= t -> t <= 1 -> lo <= a -> a <= hi -> lo <= b -> b <= hi ->
  lo <= lerp a b t /\ lerp a b t <= hi.
Proof.
  intros T0 T1 A0 A1 B0 B1. unfold lerp.
  destruct (Qle_bool (1 # 2) t).
  - assert (E : b - (b - a) * (1 - t) == b * t + a * (1 - t)) by ring.
    rewrite E. split; nra.
  - assert (E : a + (b - a) * t == b * t + a * (1 - t)) by ring.
    rewrite E. split; nra.
Qed.

Lemma floor_fraction (x : Q) :
  0 <= x - inject_Z (Qfloor x) /\ x - inject_Z (Qfloor x) <= 1.
Proof.
  pose proof (Qfloor_le x) as L. pose proof (Qlt_floor x) as U.
  rewrite inject_Z_plus in U. change (inject_Z 1) with 1 in U.
  split; lra.
Qed.

(** X9: for a confidence level in [[0, 1]] and a non-empty series, the value
    at risk is a number that lies between any two bounds of the returns: it
    is never below the worst return nor above the best. *)
Theorem var_within_sample_bounds (self : RiskMetrics.t) (c lo hi : Q) :
  RiskMetrics.portfolio_returns self <> [] ->
  Forall (fun x => lo <= x /\ x <= hi)
         (values (RiskMetrics.portfolio_returns self)) ->
  0 <= c -> c <= 1 ->
  exists v,
    RiskMetrics.compute_var self c = Ok (Fin v) /\ lo <= v /\ v <= hi.
Proof.
  intros Hne Hall H0 H1.
  unfold RiskMetrics.compute_var, np_percentile.
  rewrite (proj2 (percentile_range_iff c) (conj H0 H1)). cbn [negb].
  destruct (values (RiskMetrics.portfolio_returns self)) as [|x l] eqn:E.
  - destruct (RiskMetrics.portfolio_returns self); [contradiction|discriminate].
  - eexists. split; [reflexivity|].
    assert (Hx : lo <= x /\ x <= hi) by (inversion Hall; assumption).
    pose proof (Forall_sort _ _ Hall) as Hs.
    set (s := sort (x :: l)) in *.
    set (virtual := (1 - c) * 100 / 100 * (count (x :: l) - 1)).
    destruct (floor_fraction virtual) as [G0 G1].
    destruct (Forall_nth_default (fun y => lo <= y /\ y <= hi) s
                (Nat.min (Z.to_nat (Qfloor virtual))
                         (List.length (x :: l) - 1)) x Hs Hx) as [A0 A1].
    destruct (Forall_nth_default (fun y => lo <= y /\ y <= hi) s
                (Nat.min (Nat.min (Z.to_nat (Qfloor virtual))
                                  (List.length (x :: l) - 1) + 1)
                         (List.length (x :: l) - 1)) x Hs Hx) as [B0 B1].
    apply lerp_between; assumption.
Qed.

(** Five returns between -10% and 4%, confidence 95%. *)
Lemma var_within_sample_bounds_witness :
  exists v,
    RiskMetrics.compute_var
      (RiskMetrics.mk [(1%Z, -5 # 100); (2%Z, 2 # 100); (3%Z, -3 # 100);
                       (4%Z, 4 # 100); (5%Z, -10 # 100)] None (2 # 100))
      (95 # 100) = Ok (Fin v)
    /\ -10 # 100 <= v /\ v <= 4 # 100.
Proof.
  apply (var_within_sample_bounds
           (RiskMetrics.mk [(1%Z, -5 # 100); (2%Z, 2 # 100); (3%Z, -3 # 100);
                            (4%Z, 4 # 100); (5%Z, -10 # 100)] None (2 # 100))
           (95 # 100) (-10 # 100) (4 # 100)).
  - discriminate.
  - cbn. repeat constructor; discriminate.
  - discriminate.
  - discriminate.
Defined.

(** *** The order statistics *)

Lemma insert_sorted_perm (x : Q) (l : list Q) :
  Permutation (x :: l) (insert_sorted x l).
Proof.
  induction l as [|y l IH]; cbn; [apply Permutation_refl|].
  destruct (Qle_bool x y); [apply Permutation_refl|].
  eapply perm_trans; [apply perm_swap|]. apply perm_skip. exact IH.
Qed.

Lemma sort_perm (l : list Q) : Permutation l (sort l).
Proof.
  induction l as [|x l IH]; cbn; [apply perm_nil|].
  eapply perm_trans; [apply perm_skip; exact IH|]. apply insert_sorted_perm.
Qed.

Lemma insert_sorted_sorted (x : Q) (l : list Q) :
  StronglySorted Qle l -> StronglySorted Qle (insert_sorted x l).
Proof.
  intro H. induction H as [|y l Hs IH Hy]; cbn.
  - constructor; constructor.
  - destruct (Qle_bool x y) eqn:E.
    + apply Qle_bool_iff in E. constructor.
      * constructor; assumption.
      * constructor; [exact E|].
        eapply Forall_impl; [|exact Hy]. intros z Hz. cbn in Hz.
        apply (Qle_trans _ y); assumption.
    + assert (Hyx : y <= x).
      { apply Qlt_le_weak. apply Qnot_le_lt. intro H.
        apply Qle_bool_iff in H. congruence. }
      constructor; [exact IH|].
      apply Forall_insert_sorted; assumption.
Qed.

Lemma sort_sorted (l : list Q) : StronglySorted Qle (sort l).
Proof.
  induction l as [|x l IH]; cbn; [constructor|].
  apply insert_sorted_sorted. exact IH.
Qed.

Lemma sorted_last_max (s : list Q) (d : Q) :
  StronglySorted Qle s ->
  Forall (fun y => y <= nth (List.length s - 1) s d) s.
Proof.
  intro H. induction H as [|x s Hs IH Hx]; [constructor|].
  destruct s as [|y s'].
  - constructor; [apply Qle_refl|constructor].
  - replace (List.length (x :: y :: s') - 1)%nat
      with (S (List.length (y :: s') - 1)) by (cbn; lia).
    cbn [nth].
    constructor; [|eapply Forall_impl; [|exact IH]; intros z Hz; exact Hz].
    assert (Hin : In (nth (List.length (y :: s') - 1) (y :: s') d) (y :: s')).
    { apply nth_In. cbn. lia. }
    exact (proj1 (Forall_forall _ _) Hx _ Hin).
Qed.

Lemma lerp_at_zero (a b t : Q) : t == 0 -> lerp a b t == a.
Proof.
  intro H. unfold lerp. destruct (Qle_bool (1 # 2) t); rewrite H; ring.
Qed.

Lemma lerp_same_point (a t : Q) : lerp a a t == a.
Proof. unfold lerp. destruct (Qle_bool (1 # 2) t); ring. Qed.

(** X10: the extremes of the value at risk.  On a non-empty series, at
    confidence 1 it is the smallest return of the series and at confidence 0
    the largest. *)
Theorem var_extremes (self : RiskMetrics.t) :
  RiskMetrics.portfolio_returns self <> [] ->
  exists worst best,
    RiskMetrics.compute_var self 1 = Ok (Fin worst)
    /\ RiskMetrics.compute_var self 0 = Ok (Fin best)
    /\ Forall (fun x => worst <= x /\ x <= best)
              (values (RiskMetrics.portfolio_returns self))
    /\ (exists x, In x (values (RiskMetrics.portfolio_returns self))
                  /\ worst == x)
    /\ (exists y, In y (values (RiskMetrics.portfolio_returns self))
                  /\ best == y).
Proof.
  intro Hne. unfold RiskMetrics.compute_var, np_percentile.
  change (Qle_bool 0 ((1 - 1) * 100) && Qle_bool ((1 - 1) * 100) 100)
    with true.
  change (Qle_bool 0 ((1 - 0) * 100) && Qle_bool ((1 - 0) * 100) 100)
    with true.
  cbn [negb].
  destruct (values (RiskMetrics.portfolio_returns self)) as [|x l] eqn:E.
  { destruct (RiskMetrics.portfolio_returns self); [contradiction|discriminate]. }
  set (a := x :: l).
  set (s := sort a).
  set (last := (List.length a - 1)%nat).
  pose proof (sort_perm a) as P. fold s in P.
  pose proof (sort_sorted a) as Hsorted. fold s in Hsorted.
  assert (Ls : List.length s = List.length a)
    by (symmetry; apply Permutation_length; exact P).
  (* confidence 1: the virtual index is 0 *)
  set (v1 := (1 - 1) * 100 / 100 * (count a - 1)).
  assert (V1 : v1 == 0) by (unfold v1; field).
  assert (F1 : Qfloor v1 = 0%Z) by (rewrite V1; reflexivity).
  (* confidence 0: the virtual index is the last one *)
  set (v0 := (1 - 0) * 100 / 100 * (count a - 1)).
  assert (V0 : v0 == inject_Z (Z.of_nat last)).
  { unfold v0, count, last. cbn [List.length a].
    replace (S (List.length l) - 1)%nat with (List.length l) by lia.
    rewrite Nat2Z.inj_succ. unfold Z.succ. rewrite inject_Z_plus.
    change (inject_Z 1) with 1. field. }
  assert (F0 : Qfloor v0 = Z.of_nat last) by (rewrite V0; apply Qfloor_Z).
  rewrite F1, F0, Nat2Z.id.
  change (Z.to_nat 0) with 0%nat. cbn [Nat.min].
  rewrite Nat.min_id.
  replace (Nat.min (last + 1) last) with last by lia.
  eexists. eexists. split; [reflexivity|]. split; [reflexivity|].
  assert (W : lerp (nth 0 s x) (nth (Nat.min (0 + 1) last) s x)
                   (v1 - inject_Z 0) == nth 0 s x).
  { apply lerp_at_zero. rewrite V1. reflexivity. }
  assert (B : lerp (nth last s x) (nth last s x)
                   (v0 - inject_Z (Z.of_nat last)) == nth last s x)
    by apply lerp_same_point.
  assert (Hs0 : s <> []).
  { intro H0. rewrite H0 in Ls. discriminate Ls. }
  assert (Hmin : Forall (fun y => nth 0 s x <= y) s).
  { destruct s as [|m s']; [contradiction|]. cbn [nth].
    inversion Hsorted as [|? ? _ Hm]; subst.
    constructor; [apply Qle_refl|exact Hm]. }
  assert (Hmax : Forall (fun y => y <= nth last s x) s).
  { unfold last. rewrite <- Ls. apply sorted_last_max. exact Hsorted. }
  split; [|split].
  - apply Forall_forall. intros y Hy.
    assert (Hys : In y s) by (eapply Permutation_in; eassumption).
    rewrite W, B. split.
    + exact (proj1 (Forall_forall _ _) Hmin y Hys).
    + exact (proj1 (Forall_forall _ _) Hmax y Hys).
  - exists (nth 0 s x). split; [|exact W].
    apply (Permutation_in _ (Permutation_sym P)).
    apply nth_In. rewrite Ls. cbn. lia.
  - exists (nth last s x). split; [|exact B].
    apply (Permutation_in _ (Permutation_sym P)).
    apply nth_In. rewrite Ls. unfold last. cbn. lia.
Qed.

(** Five returns: the worst is -10%, the best 4%. *)
Lemma var_extremes_witness :
  exists worst best,
    RiskMetrics.compute_var
      (RiskMetrics.mk [(1%Z, -5 # 100); (2%Z, 2 # 100); (3%Z, -3 # 100);
                       (4%Z, 4 # 100); (5%Z, -10 # 100)] None (2 # 100)) 1
    = Ok (Fin worst)
    /\ RiskMetrics.compute_var
         (RiskMetrics.mk [(1%Z, -5 # 100); (2%Z, 2 # 100); (3%Z, -3 # 100);
                          (4%Z, 4 # 100); (5%Z, -10 # 100)] None (2 # 100)) 0
       = Ok (Fin best)
    /\ Forall (fun x => worst <= x /\ x <= best)
              [-5 # 100; 2 # 100; -3 # 100; 4 # 100; -10 # 100]
    /\ (exists x, In x [-5 # 100; 2 # 100; -3 # 100; 4 # 100; -10 # 100]
                  /\ worst == x)
    /\ (exists y, In y [-5 # 100; 2 # 100; -3 # 100; 4 # 100; -10 # 100]
                  /\ best == y).
Proof.
  apply (var_extremes
           (RiskMetrics.mk [(1%Z, -5 # 100); (2%Z, 2 # 100); (3%Z, -3 # 100);
                            (4%Z, 4 # 100); (5%Z, -10 # 100)] None (2 # 100))).
  discriminate.
Defined.

(** ** Benchmark *)

(** X11: [compute_beta] and [compute_tracking_error] raise exactly when the
    engine was built without a benchmark, and what they raise then is the
    "benchmark required" error; with a benchmark they return a float,
    whatever the two series are. *)
Theorem benchmark_required (fsqrt : Q -> Q) (self : RiskMetrics.t) :
  ((exists e, RiskMetrics.compute_beta self = Raise e)
   <-> RiskMetrics.benchmark_returns self = None)
  /\ ((exists e, RiskMetrics.compute_tracking_error fsqrt self = Raise e)
      <-> RiskMetrics.benchmark_returns self = None)
  /\ (RiskMetrics.benchmark_returns self = None ->
      fails_with (RiskMetrics.compute_beta self) BenchmarkRequired
      /\ fails_with (RiskMetrics.compute_tracking_error fsqrt self)
                    BenchmarkRequired).
Proof.
  unfold RiskMetrics.compute_beta, RiskMetrics.compute_tracking_error.
  destruct (RiskMetrics.benchmark_returns self) as [b|].
  - split; [|split].
    + split; [intros [e H]; discriminate|discriminate].
    + split; [intros [e H]; discriminate|discriminate].
    + discriminate.
  - split; [|split].
    + split; [reflexivity|]. intros _. eexists. reflexivity.
    + split; [reflexivity|]. intros _. eexists. reflexivity.
    + intros _. split; eexists; split; reflexivity.
Qed.

(** ** Maximum drawdown of a curve that never falls *)

Lemma xmin_fin (P : Q -> Prop) (l : list xfloat) :
  l <> [] ->
  Forall (fun x => exists v, x = Fin v /\ P v) l ->
  exists v, xmin l = Fin v /\ P v.
Proof.
  intros Hne Hl. destruct l as [|x l]; [contradiction|].
  inversion Hl as [|? ? Hx Hl']; subst. clear Hl Hne.
  unfold xmin. cbn [fold_left].
  assert (Hacc : exists v, xmin2 NaN x = Fin v /\ P v).
  { destruct Hx as [v [-> Hv]]. exists v. split; [reflexivity|exact Hv]. }
  revert Hacc. generalize (xmin2 NaN x) as acc.
  induction Hl' as [|y l Hy Hl IH]; intros acc Hacc; [exact Hacc|].
  cbn [fold_left]. apply IH.
  destruct Hacc as [a [-> Ha]]. destruct Hy as [b [-> Hb]]. cbn.
  destruct (Qle_bool a b); [exists a|exists b]; split; auto.
Qed.

(** With growth factors of at least one, every point of the curve is its own
    running maximum. *)
Lemma running_max_is_curve (l : list Q) (a : Q) :
  0 < a ->
  Forall (fun x => 1 <= x) l ->
  Forall (fun cm => fst cm = snd cm /\ 0 < snd cm)
         (combine (np_cumprod_acc a l) (cummax_acc a (np_cumprod_acc a l))).
Proof.
  intros Ha Hl. revert a Ha.
  induction Hl as [|x l Hx Hl IH]; intros a Ha; [constructor|].
  cbn [np_cumprod_acc cummax_acc combine].
  assert (Hy : a <= a * x) by nra.
  assert (E : Qmax a (a * x) = a * x).
  { unfold Qmax. apply Qle_bool_iff in Hy. rewrite Hy. reflexivity. }
  rewrite E. constructor.
  - cbn [fst snd]. split; [reflexivity|lra].
  - apply IH. lra.
Qed.

(** X12: a series with no negative return has no drawdown: on a non-empty
    series whose returns are all at least 0, [compute_max_drawdown] returns
    zero. *)
Theorem max_drawdown_zero_without_loss (self : RiskMetrics.t) :
  RiskMetrics.portfolio_returns self <> [] ->
  Forall (fun r => 0 <= r) (values (RiskMetrics.portfolio_returns self)) ->
  exists v, RiskMetrics.compute_max_drawdown self = Ok (Fin v) /\ v == 0.
Proof.
  intros Hne Hall. unfold RiskMetrics.compute_max_drawdown.
  destruct (values (RiskMetrics.portfolio_returns self)) as [|r0 rs] eqn:E.
  { destruct (RiskMetrics.portfolio_returns self); [contradiction|discriminate]. }
  inversion Hall as [|? ? H0 Hrs]; subst.
  cbn [map np_cumprod cummax combine].
  set (c0 := Qplus 1 r0).
  set (gs := map (Qplus 1) rs).
  assert (Hc0 : 0 < c0) by (unfold c0; lra).
  assert (Hgs : Forall (fun x => 1 <= x) gs).
  { unfold gs. clear -Hrs.
    induction Hrs as [|x l Hx Hl IH]; cbn; constructor; [lra|exact IH]. }
  assert (Hz : forall c, 0 < c ->
             exists v, xdiv (Fin (c - c)) (Fin c) = Fin v /\ v == 0).
  { intros c Hc. rewrite xdiv_fin by lra. eexists. split; [reflexivity|].
    field. lra. }
  destruct (xmin_fin (fun v => v == 0)
              (xdiv (Fin (c0 - c0)) (Fin c0)
               :: map (fun cm => xdiv (Fin (fst cm - snd cm)) (Fin (snd cm)))
                    (combine (np_cumprod_acc c0 gs)
                             (cummax_acc c0 (np_cumprod_acc c0 gs)))))
    as [v [Ev Hv]].
  - discriminate.
  - constructor; [apply Hz; exact Hc0|].
    apply Forall_map.
    eapply Forall_impl; [|apply (running_max_is_curve gs c0 Hc0 Hgs)].
    intros [c m] [A B]. cbn [fst snd] in *. subst m. apply Hz. exact B.
  - exists v. split; [|exact Hv]. cbn [map fst snd]. f_equal. exact Ev.
Qed.

(** Three gains in a row. *)
Lemma max_drawdown_zero_without_loss_witness :
  exists v,
    RiskMetrics.compute_max_drawdown
      (RiskMetrics.mk [(1%Z, 1 # 100); (2%Z, 0); (3%Z, 5 # 100)] None
                      (2 # 100))
    = Ok (Fin v) /\ v == 0.
Proof.
  apply (max_drawdown_zero_without_loss
           (RiskMetrics.mk [(1%Z, 1 # 100); (2%Z, 0); (3%Z, 5 # 100)] None
                           (2 # 100))).
  - discriminate.
  - cbn. repeat constructor; discriminate.
Defined.

(** ** Marginal value at risk, asset by asset *)

Lemma cell_scaled (f : string -> xfloat) (g : xfloat -> xfloat)
    (cols : list string) (c : string) :
  In c cols ->
  cell c (map (fun cb => (fst cb, g (snd cb))) (map (fun c' => (c', f c')) cols))
  = Some (g (f c)).
Proof.
  intro H. rewrite map_map. cbn [fst snd].
  apply (cell_tabulate (fun c' => g (f c')) cols c H).
Qed.

(** X13: what [compute_marginal_var] returns when the lengths agree (and the
    series is not empty): one entry per column of the table, in the order of
    the columns; the entry of an asset is the portfolio's value at risk at
    the default confidence times the asset's beta, and that beta is the
    population covariance of the aligned asset column with the aligned
    portfolio series over the population variance of the latter. *)
Theorem marginal_var_entries (self : RiskMetrics.t) (df : DataFrame Q) :
  shape0 df = List.length (RiskMetrics.portfolio_returns self) ->
  RiskMetrics.portfolio_returns self <> [] ->
  exists m v,
    RiskMetrics.compute_marginal_var self df = Ok m
    /\ RiskMetrics.compute_var self RiskMetrics.default_confidence_level
       = Ok (Fin v)
    /\ map fst m = columns df
    /\ forall c, In c (columns df) ->
         exists b,
           cell c m = Some (xmul b (Fin v))
           /\ xeq b (population_beta
                       (column_pairs c
                          (align_frame (columns df) (rows df)
                             (RiskMetrics.portfolio_returns self)))).
Proof.
  intros Hlen Hne.
  destruct (compute_var_default_returns self Hne) as [v Hv].
  unfold RiskMetrics.compute_marginal_var.
  apply Nat.eqb_eq in Hlen. rewrite Hlen. cbn [negb]. rewrite Hv. cbn [bind].
  eexists. exists v. split; [reflexivity|]. split; [reflexivity|]. split.
  - unfold RiskMetrics.asset_betas. rewrite !map_map. cbn [fst].
    apply map_id.
  - intros c Hc. unfold RiskMetrics.asset_betas.
    rewrite (cell_scaled _ (fun b => xmul b (Fin v)) (columns df) c Hc).
    eexists. split; [reflexivity|].
    rewrite <- (snd_column_pairs (columns df) c _ Hc
                  (align_frame_complete _ _ _)).
    apply sample_ratio_is_population_beta.
Qed.

(** Two assets over the two dates of the portfolio series. *)
Lemma marginal_var_entries_witness :
  let self := RiskMetrics.mk [(1%Z, 1 # 100); (2%Z, 3 # 100)] None (2 # 100) in
  let df := mkFrame ["AAA"; "BBB"]%string
              [(1%Z, [("AAA"%string, 2 # 100); ("BBB"%string, 0)]);
               (2%Z, [("AAA"%string, 2 # 100); ("BBB"%string, 4 # 100)])] in
  exists m v,
    RiskMetrics.compute_marginal_var self df = Ok m
    /\ RiskMetrics.compute_var self RiskMetrics.default_confidence_level
       = Ok (Fin v)
    /\ map fst m = columns df
    /\ forall c, In c (columns df) ->
         exists b,
           cell c m = Some (xmul b (Fin v))
           /\ xeq b (population_beta
                       (column_pairs c
                          (align_frame (columns df) (rows df)
                             (RiskMetrics.portfolio_returns self)))).
Proof.
  apply (marginal_var_entries
           (RiskMetrics.mk [(1%Z, 1 # 100); (2%Z, 3 # 100)] None (2 # 100))
           (mkFrame ["AAA"; "BBB"]%string
              [(1%Z, [("AAA"%string, 2 # 100); ("BBB"%string, 0)]);
               (2%Z, [("AAA"%string, 2 # 100); ("BBB"%string, 4 # 100)])])).
  - reflexivity.
  - discriminate.
Defined.

Lemma align_frame_single (c : string) (p s : Series Q) :
  NoDup (index s) -> incl p s ->
  align_frame [c] (map (fun dx => (fst dx, [(c, snd dx)])) p) s
  = map (fun dx => ([(c, snd dx)], snd dx)) p.
Proof.
  intros ND. induction p as [|[d x] p IH]; intro Hincl; [reflexivity|].
  cbn [map align_frame fst snd].
  rewrite (lookup_date_In s d x ND) by (apply Hincl; left; reflexivity).
  cbn [complete forallb cell]. rewrite String.eqb_refl. cbn [is_some andb].
  f_equal. apply IH. intros y Hy. apply Hincl. right. exact Hy.
Qed.

Lemma column_pairs_single (c : string) (p : Series Q) :
  column_pairs c (map (fun dx => ([(c, snd dx)], snd dx)) p)
  = self_pairs (values p).
Proof.
  induction p as [|[d x] p IH]; [reflexivity|].
  cbn [map column_pairs cell snd]. rewrite String.eqb_refl.
  cbn. f_equal. exact IH.
Qed.

(** The sample covariance of a series with itself over its sample variance
    is one. *)
Lemma sample_ratio_self (l : list Q) :
  (2 <= List.length l)%nat ->
  ~ sq_dev l == 0 ->
  exists b, xdiv (np_cov (self_pairs l)) (pd_var l) = Fin b /\ b == 1.
Proof.
  intros Hn Hsd.
  assert (Hge : 2 <= count l).
  { unfold count. change 2 with (inject_Z 2). rewrite <- Zle_Qle. lia. }
  assert (Hc : count (self_pairs l) = count l).
  { unfold count. rewrite length_self_pairs. reflexivity. }
  rewrite np_cov_nonempty.
  2:{ intro E. apply (f_equal (@List.length _)) in E.
      rewrite length_self_pairs in E. cbn in E. lia. }
  unfold pd_var. fold (sq_dev l). rewrite Hc.
  replace (List.length l <=? 1)%nat with false
    by (symmetry; apply Nat.leb_gt; lia).
  rewrite (xdiv_fin 1 (count l - 1)) by lra.
  unfold xmul. rewrite xdiv_fin.
  - eexists. split; [reflexivity|]. field. split; lra.
  - intro H. apply Hsd.
    assert (E : sq_dev l == sq_dev l / (count l - 1) * (count l - 1))
      by (field; lra).
    rewrite E, H. ring.
Qed.

(** X14: an asset that replicates the portfolio carries the whole value at
    risk.  When the table given to [compute_marginal_var] has one column
    holding the portfolio series itself (at least two dates, all distinct,
    returns not all equal), the marginal value at risk of that asset is the
    value at risk of the portfolio: its beta is 1. *)
Theorem marginal_var_of_replica (self : RiskMetrics.t) (c : string) :
  let s := RiskMetrics.portfolio_returns self in
  NoDup (index s) ->
  (2 <= List.length s)%nat ->
  ~ sq_dev (values s) == 0 ->
  exists mv v,
    RiskMetrics.compute_marginal_var self (single_column c s)
    = Ok [(c, Fin mv)]
    /\ RiskMetrics.compute_var self RiskMetrics.default_confidence_level
       = Ok (Fin v)
    /\ mv == v.
Proof.
  intros s ND Hn Hsd.
  assert (Hne : RiskMetrics.portfolio_returns self <> []).
  { fold s. destruct s; [cbn in Hn; lia|discriminate]. }
  destruct (compute_var_default_returns self Hne) as [v Hv].
  unfold RiskMetrics.compute_marginal_var.
  replace (Nat.eqb (shape0 (single_column c s))
                   (List.length (RiskMetrics.portfolio_returns self)))
    with true.
  2:{ symmetry. apply Nat.eqb_eq. unfold shape0, single_column. cbn [rows].
      apply length_map. }
  cbn [negb]. rewrite Hv. cbn [bind].
  unfold RiskMetrics.asset_betas, single_column. cbn [columns rows map fst snd].
  fold s.
  rewrite (align_frame_single c s s ND (incl_refl s)).
  rewrite column_pairs_single, map_map. cbn [snd].
  change (map (fun x : date * Q => snd x) s) with (values s).
  destruct (sample_ratio_self (values s)) as [b [Eb Hb]].
  { unfold values. rewrite length_map. exact Hn. }
  { exact Hsd. }
  rewrite Eb. cbn [xmul].
  eexists. exists v. split; [reflexivity|]. split; [reflexivity|].
  rewrite Hb. ring.
Qed.

(** A portfolio series of three dates, handed back as the asset AAA. *)
Lemma marginal_var_of_replica_witness :
  let self :=
    RiskMetrics.mk [(1%Z, 1 # 100); (2%Z, -2 # 100); (3%Z, 3 # 100)] None
                   (2 # 100) in
  exists mv v,
    RiskMetrics.compute_marginal_var self
      (single_column "AAA" (RiskMetrics.portfolio_returns self))
    = Ok [("AAA"%string, Fin mv)]
    /\ RiskMetrics.compute_var self RiskMetrics.default_confidence_level
       = Ok (Fin v)
    /\ mv == v.
Proof.
  apply (marginal_var_of_replica
           (RiskMetrics.mk [(1%Z, 1 # 100); (2%Z, -2 # 100); (3%Z, 3 # 100)]
                           None (2 # 100))
           "AAA").
  - cbn. repeat constructor; cbn; intuition discriminate.
  - cbn. lia.
  - discriminate.
Defined.

(** ** Alignment of portfolio and benchmark *)

Lemma lookup_date_absent {A} (d : date) (s : Series A) :
  ~ In d (index s) -> lookup_date d s = None.
Proof.
  induction s as [|[d' v] s IH]; intro H; [reflexivity|].
  cbn [lookup_date]. destruct (Z.eqb d d') eqn:E.
  - apply Z.eqb_eq in E. subst d'. exfalso. apply H. left. reflexivity.
  - apply IH. intro Hin. apply H. right. exact Hin.
Qed.



Lemma align_disjoint (q b : Series Q) :
  (forall d, In d (index q) -> ~ In d (index b)) -> align q b = [].
Proof.
  induction q as [|[d x] q IH]; intro H; [reflexivity|].
  cbn [align]. rewrite lookup_date_absent by (apply H; left; reflexivity).
  apply IH. intros d' Hd'. apply H. right. exact Hd'.
Qed.




(** X16: when portfolio and benchmark have no date in common,
    [compute_beta] raises nothing and returns [NaN]. *)
Theorem beta_without_common_date (rf : Q) (p b : Series Q) :
  (forall d, In d (index p) -> ~ In d (index b)) ->
  RiskMetrics.compute_beta (RiskMetrics.mk p (Some b) rf) = Ok NaN.
Proof.
  intro H. unfold RiskMetrics.compute_beta.
  cbn [RiskMetrics.benchmark_returns RiskMetrics.portfolio_returns].
  rewrite (align_disjoint p b H). reflexivity.
Qed.

(** Two dates each, none shared. *)
Lemma beta_without_common_date_witness :
  RiskMetrics.compute_beta
    (RiskMetrics.mk [(1%Z, 1 # 100); (2%Z, 2 # 100)]
                    (Some [(3%Z, 1 # 100); (4%Z, 3 # 100)]) (2 # 100))
  = Ok NaN.
Proof.
  apply (beta_without_common_date (2 # 100) [(1%Z, 1 # 100); (2%Z, 2 # 100)]
           [(3%Z, 1 # 100); (4%Z, 3 # 100)]).
  cbn. intros d [H|[H|[]]]; subst d; intuition discriminate.
Defined.

(** X17: what [compute_beta] returns on at least two common dates with a
    benchmark that varies: the covariance with divisor [N - 1] over the
    variance with divisor [N], that is the population beta of the aligned
    pairs times [N / (N - 1)]. *)
Theorem beta_value (self : RiskMetrics.t) (b : Series Q) :
  let ps := align (RiskMetrics.portfolio_returns self) b in
  RiskMetrics.benchmark_returns self = Some b ->
  (2 <= List.length ps)%nat ->
  ~ sq_dev (map snd ps) == 0 ->
  exists v w,
    RiskMetrics.compute_beta self = Ok (Fin v)
    /\ population_beta ps = Fin w
    /\ v == w * (count ps / (count ps - 1)).
Proof.
  intros ps Hb Hn Hsd. unfold RiskMetrics.compute_beta. rewrite Hb.
  fold ps. destruct (beta_inflated ps Hn Hsd) as [v [w [Ev [Ew Hvw]]]].
  exists v, w. rewrite Ev. auto.
Qed.

(** Portfolio 0, 2 against benchmark 0, 1: 4, twice the population beta. *)
Lemma beta_value_witness :
  let self :=
    RiskMetrics.mk [(1%Z, 0); (2%Z, 2)] (Some [(1%Z, 0); (2%Z, 1)]) (2 # 100) in
  let ps := align [(1%Z, 0); (2%Z, 2)] [(1%Z, 0); (2%Z, 1)] in
  exists v w,
    RiskMetrics.compute_beta self = Ok (Fin v)
    /\ population_beta ps = Fin w
    /\ v == w * (count ps / (count ps - 1)).
Proof.
  apply (beta_value
           (RiskMetrics.mk [(1%Z, 0); (2%Z, 2)] (Some [(1%Z, 0); (2%Z, 1)])
                           (2 # 100))
           [(1%Z, 0); (2%Z, 1)]).
  - reflexivity.
  - cbn. lia.
  - discriminate.
Defined.

(** ** Volatility and tracking error *)

Lemma fst_self_pairs (l : list Q) : map fst (self_pairs l) = l.
Proof.
  unfold self_pairs. rewrite map_map. cbn. apply map_id.
Qed.

(** The sum of squared deviations, term by term. *)
Lemma sq_dev_terms (l : list Q) :
  sq_dev l = total (map (fun x => (x - average l) * (x - average l)) l).
Proof.
  unfold sq_dev, co_moment. cbv zeta.
  rewrite fst_self_pairs, snd_self_pairs.
  unfold self_pairs. rewrite map_map. reflexivity.
Qed.

Lemma total_nonneg (l : list Q) : Forall (fun x => 0 <= x) l -> 0 <= total l.
Proof.
  intro H. induction H as [|x l Hx Hl IH]; cbn; [apply Qle_refl|].
  change (total l) with (fold_right Qplus 0 l) in IH. lra.
Qed.

Lemma sq_dev_nonneg (l : list Q) : 0 <= sq_dev l.
Proof.
  rewrite sq_dev_terms. apply total_nonneg. apply Forall_map.
  apply Forall_forall. intros x _. cbn beta.
  set (y := x - average l).
  destruct (Qlt_le_dec y 0) as [Hy|Hy].
  - assert (E : y * y == (- y) * (- y)) by ring.
    rewrite E. apply Qmult_le_0_compat; lra.
  - apply Qmult_le_0_compat; exact Hy.
Qed.

Lemma zero_terms (m : Q) (l : list Q) :
  m == 0 -> Forall (fun x => x == 0) l ->
  total (map (fun x => (x - m) * (x - m)) l) == 0.
Proof.
  intros Hm H. induction H as [|x l Hx Hl IH]; [reflexivity|].
  cbn [map total fold_right].
  change (fold_right Qplus 0 (map (fun x => (x - m) * (x - m)) l))
    with (total (map (fun x => (x - m) * (x - m)) l)).
  rewrite IH, Hx, Hm. ring.
Qed.

Lemma total_zeros (l : list Q) : Forall (fun x => x == 0) l -> total l == 0.
Proof.
  intro H. induction H as [|x l Hx Hl IH]; [reflexivity|].
  cbn [total fold_right]. change (fold_right Qplus 0 l) with (total l).
  rewrite IH, Hx. ring.
Qed.

Lemma sq_dev_zeros (l : list Q) : Forall (fun x => x == 0) l -> sq_dev l == 0.
Proof.
  intro H. rewrite sq_dev_terms. apply zero_terms; [|exact H].
  unfold average. rewrite (total_zeros l H). unfold Qdiv. ring.
Qed.

Lemma is_neg_false (q : Q) : 0 <= q -> is_neg q = false.
Proof.
  intro H. unfold is_neg. apply Qle_bool_iff in H. rewrite H. reflexivity.
Qed.

(** X18: [compute_volatility] raises nothing.  With fewer than two returns
    it returns [NaN]; with two or more it returns a number, the square root
    of the sample variance (divisor [N - 1], never negative) times the
    square root of 252. *)
Theorem volatility_needs_two_returns (fsqrt : Q -> Q) (self : RiskMetrics.t) :
  let l := values (RiskMetrics.portfolio_returns self) in
  ((List.length l <= 1)%nat ->
   RiskMetrics.compute_volatility fsqrt self = Ok NaN)
  /\ ((2 <= List.length l)%nat ->
      exists var,
        pd_var l = Fin var
        /\ var == sq_dev l / (count l - 1)
        /\ 0 <= var
        /\ RiskMetrics.compute_volatility fsqrt self
           = Ok (Fin (fsqrt var * fsqrt 252))).
Proof.
  intro l. unfold RiskMetrics.compute_volatility, RiskMetrics.pd_std.
  fold l. unfold pd_var. split; intro Hn.
  - apply Nat.leb_le in Hn. rewrite Hn. reflexivity.
  - assert (Hc : 2 <= count l).
    { unfold count. change 2 with (inject_Z 2). rewrite <- Zle_Qle. lia. }
    replace (List.length l <=? 1)%nat with false
      by (symmetry; apply Nat.leb_gt; lia).
    assert (Hv : 0 <= sq_dev l / (count l - 1)).
    { apply Qle_shift_div_l; [lra|]. pose proof (sq_dev_nonneg l). lra. }
    eexists. split; [reflexivity|]. split; [reflexivity|].
    split; [exact Hv|].
    cbn [RiskMetrics.xsqrt]. rewrite (is_neg_false _ Hv). reflexivity.
Qed.

Lemma sqrt_down_zero (q : Q) : q == 0 -> sqrt_down q == 0.
Proof.
  intro H. unfold Qeq in H. cbn in H. rewrite Z.mul_1_r in H.
  unfold sqrt_down. rewrite H. reflexivity.
Qed.

(** X19: the tracking error of a portfolio against itself is zero, for a
    series of at least two distinct dates and a square root that maps zero
    to zero. *)
Theorem tracking_error_against_itself (fsqrt : Q -> Q) (rf : Q)
    (s : Series Q) :
  (forall q, q == 0 -> fsqrt q == 0) ->
  NoDup (index s) ->
  (2 <= List.length s)%nat ->
  exists v,
    RiskMetrics.compute_tracking_error fsqrt (RiskMetrics.mk s (Some s) rf)
    = Ok (Fin v)
    /\ v == 0.
Proof.
  intros Hsqrt ND Hn. unfold RiskMetrics.compute_tracking_error.
  cbn [RiskMetrics.benchmark_returns RiskMetrics.portfolio_returns].
  rewrite (align_self s ND).
  set (d := map (fun pb : Q * Q => fst pb - snd pb) (self_pairs (values s))).
  assert (Hd : Forall (fun x => x == 0) d).
  { unfold d, self_pairs. rewrite map_map. apply Forall_map.
    apply Forall_forall. intros x _. cbn. ring. }
  assert (Hlen : List.length d = List.length s).
  { unfold d, self_pairs, values. rewrite !length_map. reflexivity. }
  unfold RiskMetrics.pd_std, pd_var.
  replace (List.length d <=? 1)%nat with false
    by (symmetry; apply Nat.leb_gt; lia).
  assert (Hvar : sq_dev d / (count d - 1) == 0).
  { rewrite (sq_dev_zeros d Hd). unfold Qdiv. ring. }
  assert (Hpos : 0 <= sq_dev d / (count d - 1))
    by (rewrite Hvar; apply Qle_refl).
  cbn [RiskMetrics.xsqrt]. rewrite (is_neg_false _ Hpos). cbn [xmul].
  eexists. split; [reflexivity|].
  rewrite (Hsqrt _ Hvar). ring.
Qed.

(** Two dates, with [sqrt_down] as square root. *)
Lemma tracking_error_against_itself_witness :
  exists v,
    RiskMetrics.compute_tracking_error sqrt_down
      (RiskMetrics.mk [(1%Z, 1 # 100); (2%Z, 3 # 100)]
                      (Some [(1%Z, 1 # 100); (2%Z, 3 # 100)]) (2 # 100))
    = Ok (Fin v)
    /\ v == 0.
Proof.
  apply (tracking_error_against_itself sqrt_down (2 # 100)
           [(1%Z, 1 # 100); (2%Z, 3 # 100)]).
  - exact sqrt_down_zero.
  - cbn. repeat constructor; cbn; intuition discriminate.
  - cbn. lia.
Defined.
